(** * The client-side session manager (AuthProvider), embedded and verified

    The source is the React authentication provider of the repository: the
    component state [user], [isAuthenticated], [isLoading], the two browser
    storage tiers, and the operations [initializeAuth], [login], [logout],
    [updateUser] and [validateSession].

    Conventions of the embedding.
    - A JavaScript string is a sequence of UTF-16 code units; the model
      carries the code units below 256, one [ascii] each, so [String.length]
      is the [.length] of the source.
    - A [Storage] object is a finite map from keys to string values:
      [getItem] is lookup (absent = [null]), [setItem] is insert,
      [removeItem] is delete.
    - React state setters are modelled as assignments to the component
      state; every operation runs on the committed state of the render that
      exposed it, and operations run one after the other.
    - The platform functions the source calls but does not define
      ([JSON.stringify], [JSON.parse], [Date]) are parameters of the
      embedding; a reference instance is given for evaluation.
    - [console.error] output and the two artificial delays carry no state
      and are left out; a storage write always succeeds (no quota). *)

From Stdlib Require Import ZArith Ascii String List Bool Lia DecimalString.
From stdpp Require Import base option gmap strings list.

Set Warnings "-register-all".

Local Open Scope string_scope.
Local Open Scope Z_scope.

(** ** Regular expressions over code units

    The fragment of the pattern language that [emailRegex] uses: character
    classes, concatenation, iteration.  [test] is
    [RegExp.prototype.test] for a pattern anchored by [^] and [$] and
    without flags, that is, a match of the whole subject. *)

Module Regex.

Inductive regex : Type :=
| Void : regex
| Eps : regex
| Class (p : ascii -> bool) : regex
| Seq (r1 r2 : regex) : regex
| Alt (r1 r2 : regex) : regex
| Star (r : regex) : regex.

(** [r+] *)
Definition Plus (r : regex) : regex := Seq r (Star r).

(** A literal character. *)
Definition Lit (c : ascii) : regex := Class (Ascii.eqb c).

Fixpoint nullable (r : regex) : bool :=
  match r with
  | Void => false
  | Eps => true
  | Class _ => false
  | Seq r1 r2 => nullable r1 && nullable r2
  | Alt r1 r2 => nullable r1 || nullable r2
  | Star _ => true
  end.

Fixpoint deriv (c : ascii) (r : regex) : regex :=
  match r with
  | Void => Void
  | Eps => Void
  | Class p => if p c then Eps else Void
  | Seq r1 r2 =>
      if nullable r1
      then Alt (Seq (deriv c r1) r2) (deriv c r2)
      else Seq (deriv c r1) r2
  | Alt r1 r2 => Alt (deriv c r1) (deriv c r2)
  | Star r1 => Seq (deriv c r1) (Star r1)
  end.

Fixpoint test (r : regex) (s : string) : bool :=
  match s with
  | EmptyString => nullable r
  | String c s' => test (deriv c r) s'
  end.

(** The language of a pattern, as a relation. *)
Inductive lang : regex -> string -> Prop :=
| lang_eps : lang Eps ""
| lang_class p c : p c = true -> lang (Class p) (String c "")
| lang_seq r1 r2 s1 s2 : lang r1 s1 -> lang r2 s2 -> lang (Seq r1 r2) (s1 +:+ s2)
| lang_alt_l r1 r2 s : lang r1 s -> lang (Alt r1 r2) s
| lang_alt_r r1 r2 s : lang r2 s -> lang (Alt r1 r2) s
| lang_star_nil r : lang (Star r) ""
| lang_star_cons r s1 s2 : lang r s1 -> lang (Star r) s2 -> lang (Star r) (s1 +:+ s2).

Create HintDb regex.
#[global] Hint Constructors lang : regex.

End Regex.

(** ** JavaScript values

    The values the provider handles: what [JSON.parse] can return and what
    callers pass to [updateUser].  Numbers are the integral ones.  An object
    is the list of its own properties in creation order. *)

Inductive JSValue : Type :=
| JNull : JSValue
| JBool (b : bool) : JSValue
| JNum (n : Z) : JSValue
| JStr (s : string) : JSValue
| JArr (xs : list JSValue) : JSValue
| JObj (ps : list (string * JSValue)) : JSValue.

Abbreviation props := (list (string * JSValue)).

(** [ToBoolean]. *)
Definition truthy (v : JSValue) : bool :=
  match v with
  | JNull => false
  | JBool b => b
  | JNum n => negb (n =? 0)
  | JStr s => negb (String.eqb s "")
  | JArr _ => true
  | JObj _ => true
  end.

(** [ToBoolean] of the result of [getItem]: [null] and the empty string are
    falsy. *)
Definition truthy_item (o : option string) : bool :=
  match o with
  | None => false
  | Some s => negb (String.eqb s "")
  end.

(** [storedAuth === 'true'] *)
Definition is_literal (lit : string) (o : option string) : bool :=
  match o with
  | None => false
  | Some s => String.eqb s lit
  end.

(** [Number.prototype.toString] on an integer. *)
Definition Number_toString (n : Z) : string :=
  NilZero.string_of_int (Z.to_int n).

Definition index_key (i : nat) : string :=
  NilEmpty.string_of_uint (Nat.to_uint i).

Fixpoint string_chars (i : nat) (s : string) : props :=
  match s with
  | EmptyString => nil
  | String c s' => (index_key i, JStr (String c "")) :: string_chars (S i) s'
  end.

Fixpoint array_elems (i : nat) (xs : list JSValue) : props :=
  match xs with
  | nil => nil
  | x :: xs' => (index_key i, x) :: array_elems (S i) xs'
  end.

(** The own enumerable properties of a value, as object spread and property
    read see them: those of an object, the indexed elements of an array or
    of a string, none for [null], booleans and numbers. *)
Definition own_props (v : JSValue) : props :=
  match v with
  | JObj ps => ps
  | JArr xs => array_elems 0 xs
  | JStr s => string_chars 0 s
  | _ => nil
  end.

Fixpoint get_prop (k : string) (ps : props) : option JSValue :=
  match ps with
  | nil => None
  | (k', v) :: ps' => if String.eqb k' k then Some v else get_prop k ps'
  end.

(** Defining a property on an object literal under construction: an
    existing key keeps its place and takes the new value, a new key goes to
    the end. *)
Fixpoint set_prop (k : string) (v : JSValue) (ps : props) : props :=
  match ps with
  | nil => (k, v) :: nil
  | (k', v') :: ps' =>
      if String.eqb k' k then (k', v) :: ps' else (k', v') :: set_prop k v ps'
  end.

(** [{ ...acc, ...src }] continued: copy the properties of [src] in order. *)
Definition spread_into (acc : props) (src : props) : props :=
  fold_left (fun o kv => set_prop (fst kv) (snd kv) o) src acc.

(** [v.k] for a value that is not [null] and a key that names no built-in
    or inherited property ([loginTime] is the only key the source reads);
    [None] is [undefined]. *)
Definition member (v : JSValue) (k : string) : option JSValue :=
  get_prop k (own_props v).

Definition truthy_opt (o : option JSValue) : bool :=
  match o with
  | None => false
  | Some v => truthy v
  end.

(** ** Component state and the two storage tiers *)

Abbreviation Storage := (gmap string string).

Record AuthState : Type := mkAuthState {
  user : JSValue;
  isAuthenticated : bool;
  isLoading : bool;
  localStorage : Storage;
  sessionStorage : Storage
}.

(** The state of the first render: the three [useState] initial values over
    whatever the browser holds in the two tiers. *)
Definition mount (ls ss : Storage) : AuthState :=
  {| user := JNull; isAuthenticated := false; isLoading := true;
     localStorage := ls; sessionStorage := ss |}.

(** ** Computations: state threading with exceptions

    A block of the source either completes normally with a value or throws;
    in both cases the state reached so far is kept, which is what a [catch]
    or [finally] clause then sees. *)

Inductive JSError : Type :=
| SyntaxError : JSError
| Error (message : string) : JSError.

Inductive completion (A : Type) : Type :=
| Normal (a : A) : completion A
| Throw (e : JSError) : completion A.

Arguments Normal {A} a.
Arguments Throw {A} e.

Definition M (A : Type) : Type := AuthState -> completion A * AuthState.

#[global] Instance M_ret : MRet M := fun A a s => (Normal a, s).

#[global] Instance M_bind : MBind M := fun A B f m s =>
  match m s with
  | (Normal a, s') => f a s'
  | (Throw e, s') => (Throw e, s')
  end.

Definition throw {A : Type} (e : JSError) : M A := fun s => (Throw e, s).

(** [try { body } catch (error) { handler }] *)
Definition try_catch {A : Type} (body : M A) (handler : JSError -> M A) : M A :=
  fun s =>
    match body s with
    | (Normal a, s') => (Normal a, s')
    | (Throw e, s') => handler e s'
    end.

(** [try { body } finally { final }]: [final] always runs; when it
    completes normally the completion of [body] stands. *)
Definition try_finally {A : Type} (body : M A) (final : M unit) : M A :=
  fun s =>
    match body s with
    | (c, s') =>
        match final s' with
        | (Normal _, s'') => (c, s'')
        | (Throw e, s'') => (Throw e, s'')
        end
    end.

Definition get_user : M JSValue := fun s => (Normal (user s), s).

Definition setUser (v : JSValue) : M unit := fun s =>
  (Normal tt, {| user := v; isAuthenticated := isAuthenticated s;
                 isLoading := isLoading s;
                 localStorage := localStorage s;
                 sessionStorage := sessionStorage s |}).

Definition setIsAuthenticated (b : bool) : M unit := fun s =>
  (Normal tt, {| user := user s; isAuthenticated := b;
                 isLoading := isLoading s;
                 localStorage := localStorage s;
                 sessionStorage := sessionStorage s |}).

Definition setIsLoading (b : bool) : M unit := fun s =>
  (Normal tt, {| user := user s; isAuthenticated := isAuthenticated s;
                 isLoading := b;
                 localStorage := localStorage s;
                 sessionStorage := sessionStorage s |}).

Definition with_localStorage (f : Storage -> Storage) (s : AuthState) : AuthState :=
  {| user := user s; isAuthenticated := isAuthenticated s;
     isLoading := isLoading s;
     localStorage := f (localStorage s);
     sessionStorage := sessionStorage s |}.

Definition with_sessionStorage (f : Storage -> Storage) (s : AuthState) : AuthState :=
  {| user := user s; isAuthenticated := isAuthenticated s;
     isLoading := isLoading s;
     localStorage := localStorage s;
     sessionStorage := f (sessionStorage s) |}.

Module LocalStorage.
Definition getItem (k : string) : M (option string) :=
  fun s => (Normal (localStorage s !! k), s).
Definition setItem (k v : string) : M unit :=
  fun s => (Normal tt, with_localStorage (insert k v) s).
Definition removeItem (k : string) : M unit :=
  fun s => (Normal tt, with_localStorage (delete k) s).
End LocalStorage.

Module SessionStorage.
Definition getItem (k : string) : M (option string) :=
  fun s => (Normal (sessionStorage s !! k), s).
Definition setItem (k v : string) : M unit :=
  fun s => (Normal tt, with_sessionStorage (insert k v) s).
Definition removeItem (k : string) : M unit :=
  fun s => (Normal tt, with_sessionStorage (delete k) s).
End SessionStorage.

(** [if (c) { body }] with no [else]. *)
Definition when (c : bool) (body : M unit) : M unit :=
  if c then body else mret tt.

(** ** The e-mail pattern of [login]

    [/^[^\s@]+@[^\s@]+\.[^\s@]+$/].  [\s] is the white space of the pattern
    language; among the code units below 256 these are TAB, LF, VT, FF, CR,
    SPACE and NO-BREAK SPACE. *)

Definition white_space (c : ascii) : bool :=
  let n := nat_of_ascii c in
  ((9 <=? n) && (n <=? 13) || (n =? 32) || (n =? 160))%nat.

(** The class [[^\s@]]. *)
Definition not_space_at (c : ascii) : bool :=
  negb (white_space c) && negb (Ascii.eqb c "@").

Definition emailRegex : Regex.regex :=
  Regex.Seq (Regex.Plus (Regex.Class not_space_at))
    (Regex.Seq (Regex.Lit "@")
       (Regex.Seq (Regex.Plus (Regex.Class not_space_at))
          (Regex.Seq (Regex.Lit ".")
             (Regex.Plus (Regex.Class not_space_at))))).

(** [timeDifference > maxSessionTime], where the difference is [NaN]
    ([None]) when the login time is an invalid date. *)
Definition exceeds (timeDifference : option Z) (maxSessionTime : Z) : bool :=
  match timeDifference with
  | None => false
  | Some d => maxSessionTime <? d
  end.

(** ** The provider *)

Section AuthProvider.

(** [JSON.stringify] on a value. *)
Variable JSON_stringify : JSValue -> string.
(** [JSON.parse]; [None] when it throws [SyntaxError]. *)
Variable JSON_parse : string -> option JSValue.
(** [new Date(t).toISOString()] for a clock reading [t], in milliseconds
    since the epoch. *)
Variable Date_toISOString : Z -> string.
(** The time value of [new Date(v)]; [None] for an invalid date. *)
Variable Date_valueOf : JSValue -> option Z.

Definition parse (raw : string) : M JSValue := fun s =>
  match JSON_parse raw with
  | Some v => (Normal v, s)
  | None => (Throw SyntaxError, s)
  end.

(** [JSON.parse] on the result of [getItem]; [null] reads as the text
    [null]. *)
Definition parse_item (item : option string) : M JSValue :=
  parse (default "null" item).

Definition initializeAuth : M unit :=
  try_finally
    (try_catch
       (storedUser ← LocalStorage.getItem "user";
        storedAuth ← LocalStorage.getItem "isAuthenticated";
        when (truthy_item storedUser && is_literal "true" storedAuth)
          (parsed ← parse_item storedUser;
           setUser parsed;;
           setIsAuthenticated true))
       (fun error =>
          LocalStorage.removeItem "user";;
          LocalStorage.removeItem "isAuthenticated"))
    (setIsLoading false).

(** The object literal [userData] of [login]; [t_date] and [t_now] are the
    clock readings of [new Date()] and [Date.now()]. *)
Definition new_session (email : string) (rememberMe : bool)
    (t_date t_now : Z) : JSValue :=
  JObj [("email", JStr email);
        ("rememberMe", JBool rememberMe);
        ("loginTime", JStr (Date_toISOString t_date));
        ("id", JStr (Number_toString t_now))].

Definition login (email password : string) (rememberMe : bool)
    (t_date t_now : Z) : M bool :=
  try_catch
    (when (negb (Regex.test emailRegex email))
       (throw (Error "Invalid email format"));;
     when (String.length password <? 6)%nat
       (throw (Error "Password must be at least 6 characters"));;
     let userData := new_session email rememberMe t_date t_now in
     setUser userData;;
     setIsAuthenticated true;;
     (if rememberMe then
        LocalStorage.setItem "user" (JSON_stringify userData);;
        LocalStorage.setItem "isAuthenticated" "true"
      else
        SessionStorage.setItem "user" (JSON_stringify userData);;
        SessionStorage.setItem "isAuthenticated" "true");;
     mret true)
    (fun error => mret false).

Definition logout : M unit :=
  setUser JNull;;
  setIsAuthenticated false;;
  LocalStorage.removeItem "user";;
  LocalStorage.removeItem "isAuthenticated";;
  SessionStorage.removeItem "user";;
  SessionStorage.removeItem "isAuthenticated".

(** [{ ...user, ...userData }] *)
Definition merge (user userData : JSValue) : JSValue :=
  JObj (spread_into (spread_into [] (own_props user)) (own_props userData)).

Definition updateUser (userData : JSValue) : M unit :=
  user ← get_user;
  let updatedUser := merge user userData in
  setUser updatedUser;;
  (stored ← LocalStorage.getItem "user";
   when (truthy_item stored)
     (LocalStorage.setItem "user" (JSON_stringify updatedUser)));;
  (stored ← SessionStorage.getItem "user";
   when (truthy_item stored)
     (SessionStorage.setItem "user" (JSON_stringify updatedUser))).

Definition maxSessionTime : Z := 24 * 60 * 60 * 1000.

(** [validateSession]; [now] is the clock reading of [new Date()].  The
    early [return false] of the source is the inner [then] branch. *)
Definition validateSession (now : Z) : M bool :=
  user ← get_user;
  if truthy user && truthy_opt (member user "loginTime") then
    let loginTime := member user "loginTime" ≫= Date_valueOf in
    let timeDifference := (fun t => now - t) <$> loginTime in
    if exceeds timeDifference maxSessionTime then
      logout;;
      mret false
    else mret true
  else mret true.

(** ** Operations as transitions *)

Inductive Op : Type :=
| Bootstrap : Op
| Login (email password : string) (rememberMe : bool) (t_date t_now : Z) : Op
| Logout : Op
| UpdateUser (userData : JSValue) : Op
| ValidateSession (now : Z) : Op.

Definition exec {A : Type} (m : M A) (s : AuthState) : AuthState := snd (m s).

Definition step (s : AuthState) (op : Op) : AuthState :=
  match op with
  | Bootstrap => exec initializeAuth s
  | Login email password rememberMe t_date t_now =>
      exec (login email password rememberMe t_date t_now) s
  | Logout => exec logout s
  | UpdateUser userData => exec (updateUser userData) s
  | ValidateSession now => exec (validateSession now) s
  end.

Definition run (ops : list Op) (s : AuthState) : AuthState :=
  fold_left step ops s.

(** ** Vocabulary of the properties *)

(** A Session exists and its [loginTime] is the instant [t0]: the case in
    which [validateSession] compares times. *)
Definition session_since (s : AuthState) (t0 : Z) : Prop :=
  truthy (user s) = true /\
  exists lt, member (user s) "loginTime" = Some lt /\
             truthy lt = true /\ Date_valueOf lt = Some t0.

(** [user] is null exactly when unauthenticated. *)
Definition state_invariant (s : AuthState) : Prop :=
  user s = JNull <-> isAuthenticated s = false.

(** The calls under which [state_invariant] is kept: [updateUser] while
    authenticated, and a bootstrap whose durable [user] text does not read
    as [null]. *)
Definition permitted (s : AuthState) (op : Op) : Prop :=
  match op with
  | UpdateUser _ => isAuthenticated s = true
  | Bootstrap =>
      forall raw, localStorage s !! "user" = Some raw -> JSON_parse raw <> Some JNull
  | _ => True
  end.

Fixpoint permitted_run (s : AuthState) (ops : list Op) : Prop :=
  match ops with
  | [] => True
  | op :: rest => permitted s op /\ permitted_run (step s op) rest
  end.

(** The order the timers impose: [initializeAuth] is scheduled once, 500 ms
    after the mount, and is the only writer of [isLoading]; the body of a
    [login] runs 1000 ms after its call, hence after [initializeAuth]. *)
Definition enabled (s : AuthState) (op : Op) : Prop :=
  match op with
  | Bootstrap => isLoading s = true
  | Login _ _ _ _ _ => isLoading s = false
  | _ => True
  end.

(** The states of one page life, the storage being written by this provider
    only. *)
Inductive reachable : AuthState -> Prop :=
| reachable_mount ls ss : reachable (mount ls ss)
| reachable_step s op : reachable s -> enabled s op -> reachable (step s op).

End AuthProvider.

(** A tier holds an entry under the [user] key. *)
Definition has_user (tier : Storage) : Prop := is_Some (tier !! "user").

(** What every state of a page life satisfies: no authentication before the
    bootstrap has run, and a stored Session under every authenticated
    state. *)
Definition tier_invariant (s : AuthState) : Prop :=
  (isLoading s = true -> isAuthenticated s = false) /\
  (isAuthenticated s = true ->
   has_user (localStorage s) \/ has_user (sessionStorage s)).

(** The shape the e-mail check is described by: three non-empty runs of
    characters that are neither white space nor [@], the first two separated
    by [@], the last two by a dot. *)
Definition plain (s : string) : Prop :=
  s <> "" /\
  forall c, In c (list_ascii_of_string s) -> white_space c = false /\ c <> "@"%char.

Definition email_shape (email : string) : Prop :=
  exists a b c,
    email = a +:+ "@" +:+ b +:+ "." +:+ c /\ plain a /\ plain b /\ plain c.

(** ** A reference platform

    Instances of the platform functions, used to evaluate the provider on
    concrete inputs.  The theorems below hold for every platform. *)

Module Reference.

Definition digit_char (d : Z) : ascii := ascii_of_nat (48 + Z.to_nat d).

(** The last [width] decimal digits of [n], padded with zeros. *)
Fixpoint pad_digits (width : nat) (n : Z) : string :=
  match width with
  | O => ""
  | S w => pad_digits w (n / 10) +:+ String (digit_char (n mod 10)) ""
  end.

Definition msPerDay : Z := 86400000.

(** Largest magnitude of a time value. *)
Definition maxTime : Z := 8640000000000000.

(** Year, month and day of a day number counted from 1970-01-01, in the
    proleptic Gregorian calendar. *)
Definition civil_from_days (days : Z) : Z * Z * Z :=
  let z := days + 719468 in
  let era := z / 146097 in
  let doe := z - era * 146097 in
  let yoe := (doe - doe / 1460 + doe / 36524 - doe / 146096) / 365 in
  let doy := doe - (365 * yoe + yoe / 4 - yoe / 100) in
  let mp := (5 * doy + 2) / 153 in
  let d := doy - (153 * mp + 2) / 5 + 1 in
  let m := if mp <? 10 then mp + 3 else mp - 9 in
  let y := yoe + era * 400 in
  (if m <=? 2 then y + 1 else y, m, d).

Definition days_from_civil (y m d : Z) : Z :=
  let y' := if m <=? 2 then y - 1 else y in
  let era := y' / 400 in
  let yoe := y' - era * 400 in
  let doy := (153 * (if 2 <? m then m - 3 else m + 9) + 2) / 5 + d - 1 in
  let doe := yoe * 365 + yoe / 4 - yoe / 100 + doy in
  era * 146097 + doe - 719468.

Definition year_text (y : Z) : string :=
  if (0 <=? y) && (y <=? 9999) then pad_digits 4 y
  else (if y <? 0 then "-" else "+") +:+ pad_digits 6 (Z.abs y).

(** [Date.prototype.toISOString]: [YYYY-MM-DDTHH:mm:ss.sssZ], with a signed
    six-digit year outside 0..9999. *)
Definition Date_toISOString (t : Z) : string :=
  let '(y, m, d) := civil_from_days (t / msPerDay) in
  let r := t mod msPerDay in
  year_text y +:+ "-" +:+ pad_digits 2 m +:+ "-" +:+ pad_digits 2 d +:+ "T"
  +:+ pad_digits 2 (r / 3600000) +:+ ":" +:+ pad_digits 2 (r / 60000 mod 60)
  +:+ ":" +:+ pad_digits 2 (r / 1000 mod 60) +:+ "." +:+ pad_digits 3 (r mod 1000)
  +:+ "Z".

Definition digit_value (c : ascii) : option Z :=
  let n := nat_of_ascii c in
  if ((48 <=? n) && (n <=? 57))%nat then Some (Z.of_nat n - 48) else None.

(** Read exactly [width] decimal digits. *)
Fixpoint take_digits (width : nat) (acc : Z) (s : string) : option (Z * string) :=
  match width with
  | O => Some (acc, s)
  | S w =>
      match s with
      | EmptyString => None
      | String c s' => d ← digit_value c; take_digits w (10 * acc + d) s'
      end
  end.

Definition expect (c : ascii) (s : string) : option string :=
  match s with
  | EmptyString => None
  | String c' s' => if Ascii.eqb c c' then Some s' else None
  end.

Definition take_year (s : string) : option (Z * string) :=
  match s with
  | String "+" s' => take_digits 6 0 s'
  | String "-" s' => '(y, r) ← take_digits 6 0 s'; Some (- y, r)
  | _ => take_digits 4 0 s
  end.

Definition days_in_month (y m : Z) : Z :=
  days_from_civil (if m =? 12 then y + 1 else y) (if m =? 12 then 1 else m + 1) 1
  - days_from_civil y m 1.

(** The date-time text that [toISOString] writes, read back; any other text
    is an invalid date here (engines accept further formats). *)
Definition parse_iso (s : string) : option Z :=
  '(y, s) ← take_year s;
  s ← expect "-" s; '(m, s) ← take_digits 2 0 s;
  s ← expect "-" s; '(d, s) ← take_digits 2 0 s;
  s ← expect "T" s; '(h, s) ← take_digits 2 0 s;
  s ← expect ":" s; '(mi, s) ← take_digits 2 0 s;
  s ← expect ":" s; '(sec, s) ← take_digits 2 0 s;
  s ← expect "." s; '(ms, s) ← take_digits 3 0 s;
  s ← expect "Z" s;
  let t := days_from_civil y m d * msPerDay
           + h * 3600000 + mi * 60000 + sec * 1000 + ms in
  if String.eqb s ""
     && (1 <=? m) && (m <=? 12) && (1 <=? d) && (d <=? days_in_month y m)
     && (h <=? 23) && (mi <=? 59) && (sec <=? 59)
     && (Z.abs t <=? maxTime)
  then Some t else None.

(** The time value of [new Date(v)]: a number is the time value itself
    (within range), [null] and booleans convert to 0 and 1, a string is
    parsed; objects and arrays are taken as invalid. *)
Definition Date_valueOf (v : JSValue) : option Z :=
  match v with
  | JNull => Some 0
  | JBool b => Some (if b then 1 else 0)
  | JNum n => if Z.abs n <=? maxTime then Some n else None
  | JStr s => parse_iso s
  | JArr _ => None
  | JObj _ => None
  end.

(** *** JSON text *)

Definition dquote : ascii := "034"%char.

Definition backslash : ascii := "092"%char.

Definition hex_char (d : Z) : ascii :=
  if d <? 10 then ascii_of_nat (48 + Z.to_nat d) else ascii_of_nat (87 + Z.to_nat d).

(** One code unit inside a JSON string literal. *)
Definition escape_char (c : ascii) : string :=
  let n := Z.of_nat (nat_of_ascii c) in
  if Ascii.eqb c dquote then String backslash (String dquote "")
  else if Ascii.eqb c backslash then String backslash (String backslash "")
  else if n =? 8 then String backslash "b"
  else if n =? 9 then String backslash "t"
  else if n =? 10 then String backslash "n"
  else if n =? 12 then String backslash "f"
  else if n =? 13 then String backslash "r"
  else if n <? 32 then
    String backslash "u00"
    +:+ String (hex_char (n / 16)) (String (hex_char (n mod 16)) "")
  else String c "".

Fixpoint escape (s : string) : string :=
  match s with
  | EmptyString => ""
  | String c s' => escape_char c +:+ escape s'
  end.

Definition quote (s : string) : string :=
  String dquote (escape s +:+ String dquote "").

Fixpoint join_comma (parts : list string) : string :=
  match parts with
  | nil => ""
  | p :: nil => p
  | p :: rest => p +:+ "," +:+ join_comma rest
  end.

(** [JSON.stringify] without indentation; the properties of an object are
    written in creation order. *)
Fixpoint JSON_stringify (v : JSValue) : string :=
  match v with
  | JNull => "null"
  | JBool true => "true"
  | JBool false => "false"
  | JNum n => Number_toString n
  | JStr s => quote s
  | JArr xs => "[" +:+ join_comma (map JSON_stringify xs) +:+ "]"
  | JObj ps =>
      "{" +:+ join_comma
                (map (fun kv => match kv with
                                | (k, x) => quote k +:+ ":" +:+ JSON_stringify x
                                end) ps) +:+ "}"
  end.

Definition is_json_space (c : ascii) : bool :=
  let n := nat_of_ascii c in
  ((n =? 32) || (n =? 9) || (n =? 10) || (n =? 13))%nat.

Fixpoint skip_ws (s : string) : string :=
  match s with
  | String c s' => if is_json_space c then skip_ws s' else s
  | EmptyString => s
  end.

Fixpoint expect_text (lit s : string) : option string :=
  match lit with
  | EmptyString => Some s
  | String c lit' => s' ← expect c s; expect_text lit' s'
  end.

Definition hex_value (c : ascii) : option Z :=
  let n := Z.of_nat (nat_of_ascii c) in
  if (48 <=? n) && (n <=? 57) then Some (n - 48)
  else if (97 <=? n) && (n <=? 102) then Some (n - 87)
  else if (65 <=? n) && (n <=? 70) then Some (n - 55)
  else None.

(** The character an escape letter stands for. *)
Definition unescape (e : ascii) : option ascii :=
  if Ascii.eqb e dquote then Some dquote
  else if Ascii.eqb e backslash then Some backslash
  else if Ascii.eqb e "/" then Some "/"%char
  else if Ascii.eqb e "b" then Some (ascii_of_nat 8)
  else if Ascii.eqb e "t" then Some (ascii_of_nat 9)
  else if Ascii.eqb e "n" then Some (ascii_of_nat 10)
  else if Ascii.eqb e "f" then Some (ascii_of_nat 12)
  else if Ascii.eqb e "r" then Some (ascii_of_nat 13)
  else None.

(** The rest of a string literal after its opening quote.  A four-digit
    hexadecimal escape is read when it names a code unit below 256. *)
Fixpoint parse_chars (s : string) : option (string * string) :=
  match s with
  | EmptyString => None
  | String c r =>
      if Ascii.eqb c dquote then Some ("", r)
      else if Ascii.eqb c backslash then
        match r with
        | String "u" (String h1 (String h2 (String h3 (String h4 r')))) =>
            a ← hex_value h1; b ← hex_value h2;
            c ← hex_value h3; d ← hex_value h4;
            if (a =? 0) && (b =? 0) then
              '(str, rest) ← parse_chars r';
              Some (String (ascii_of_nat (Z.to_nat (16 * c + d))) str, rest)
            else None
        | String e r' =>
            ch ← unescape e;
            '(str, rest) ← parse_chars r';
            Some (String ch str, rest)
        | EmptyString => None
        end
      else if (nat_of_ascii c <? 32)%nat then None
      else '(str, rest) ← parse_chars r; Some (String c str, rest)
  end.

Fixpoint span_digits (s : string) : string * string :=
  match s with
  | String c s' =>
      match digit_value c with
      | Some _ => let '(ds, rest) := span_digits s' in (String c ds, rest)
      | None => ("", s)
      end
  | EmptyString => ("", s)
  end.

Fixpoint digits_value (acc : Z) (ds : string) : Z :=
  match ds with
  | EmptyString => acc
  | String c ds' => digits_value (10 * acc + default 0 (digit_value c)) ds'
  end.

(** An integer literal; a fraction or an exponent is outside the numbers of
    the model and is not read. *)
Definition parse_number (s : string) : option (Z * string) :=
  let '(negative, s1) :=
    match s with
    | String "-" r => (true, r)
    | _ => (false, s)
    end in
  let '(ds, rest) := span_digits s1 in
  let continues :=
    match rest with
    | String c _ => Ascii.eqb c "." || Ascii.eqb c "e" || Ascii.eqb c "E"
    | EmptyString => false
    end in
  match ds with
  | EmptyString => None
  | String "0" (String _ _) => None
  | _ =>
      if continues then None
      else Some (if negative then - digits_value 0 ds else digits_value 0 ds, rest)
  end.

Fixpoint parse_value (fuel : nat) (s : string) : option (JSValue * string) :=
  match fuel with
  | O => None
  | S fuel =>
      match skip_ws s with
      | EmptyString => None
      | String c r =>
          if Ascii.eqb c "n" then r' ← expect_text "ull" r; Some (JNull, r')
          else if Ascii.eqb c "t" then r' ← expect_text "rue" r; Some (JBool true, r')
          else if Ascii.eqb c "f" then r' ← expect_text "alse" r; Some (JBool false, r')
          else if Ascii.eqb c dquote then
            '(str, r') ← parse_chars r; Some (JStr str, r')
          else if Ascii.eqb c "[" then
            match skip_ws r with
            | String "]" r' => Some (JArr [], r')
            | _ => '(xs, r') ← parse_elements fuel r; Some (JArr xs, r')
            end
          else if Ascii.eqb c "{" then
            match skip_ws r with
            | String "}" r' => Some (JObj [], r')
            | _ => '(ps, r') ← parse_members fuel [] r; Some (JObj ps, r')
            end
          else '(n, r') ← parse_number (String c r); Some (JNum n, r')
      end
  end
with parse_elements (fuel : nat) (s : string) : option (list JSValue * string) :=
  match fuel with
  | O => None
  | S fuel =>
      '(x, r) ← parse_value fuel s;
      match skip_ws r with
      | String "," r' => '(xs, r'') ← parse_elements fuel r'; Some (x :: xs, r'')
      | String "]" r' => Some ([x], r')
      | _ => None
      end
  end
with parse_members (fuel : nat) (acc : props) (s : string) : option (props * string) :=
  match fuel with
  | O => None
  | S fuel =>
      match skip_ws s with
      | String c r =>
          if Ascii.eqb c dquote then
            '(k, r1) ← parse_chars r;
            r2 ← expect ":" (skip_ws r1);
            '(x, r3) ← parse_value fuel r2;
            match skip_ws r3 with
            | String "," r4 => parse_members fuel (set_prop k x acc) r4
            | String "}" r4 => Some (set_prop k x acc, r4)
            | _ => None
            end
          else None
      | EmptyString => None
      end
  end.

(** [JSON.parse]: one value, then nothing but white space.  The three
    functions above call each other at most twice in a row without reading
    a character, so twice the length of the text bounds the depth of the
    calls. *)
Definition JSON_parse (s : string) : option JSValue :=
  '(v, rest) ← parse_value (2 * String.length s + 2) s;
  if String.eqb (skip_ws rest) "" then Some v else None.

End Reference.

(** ** Scenarios

    Concrete runs on the reference platform. *)

Module Scenario.

Abbreviation initializeAuth := (initializeAuth Reference.JSON_parse).
Abbreviation login :=
  (login Reference.JSON_stringify Reference.Date_toISOString).
Abbreviation updateUser := (updateUser Reference.JSON_stringify).
Abbreviation validateSession := (validateSession Reference.Date_valueOf).
Abbreviation run :=
  (run Reference.JSON_stringify Reference.JSON_parse
       Reference.Date_toISOString Reference.Date_valueOf).

(** 2023-11-14T22:13:20.123Z *)
Definition t_login : Z := 1700000000123.

Definition hour : Z := 60 * 60 * 1000.

(** A first visit: nothing stored. *)
Definition first_visit : AuthState := mount ∅ ∅.

(** The first visit once the bootstrap has run. *)
Definition booted : AuthState := run [Bootstrap] first_visit.

(** Bootstrap, then a remembered login. *)
Definition remembered : AuthState :=
  run [Bootstrap; Login "a@b.co" "abcdef" true t_login t_login] first_visit.

(** Bootstrap, then a login for this tab only. *)
Definition this_tab_only : AuthState :=
  run [Bootstrap; Login "a@b.co" "abcdef" false t_login t_login] first_visit.

(** The page is loaded again in the same tab: both tiers are as the
    previous page life left them. *)
Definition reload (s : AuthState) : AuthState :=
  mount (localStorage s) (sessionStorage s).

(** A remembered login after such a reload of a tab-only session. *)
Definition remembered_after_reload : AuthState :=
  run [Bootstrap; Login "a@b.co" "abcdef" true (t_login + hour) (t_login + hour)]
      (reload this_tab_only).

(** Two logins in one page life, the first for this tab only. *)
Definition logged_in_twice : AuthState :=
  run [Login "a@b.co" "abcdef" true (t_login + hour) (t_login + hour)]
      this_tab_only.

(** The tab-only session with the durable [user] entry seeded with the
    empty text. *)
Definition blank_durable : AuthState :=
  with_localStorage (insert "user" "") this_tab_only.

Definition nickname : JSValue := JObj [("nickname", JStr "x")].

(** A whole page life over the storage a remembered login left. *)
Definition page_life : list Op :=
  [Bootstrap;
   UpdateUser nickname;
   ValidateSession (t_login + 25 * hour);
   Login "a@b.co" "abcdef" false (t_login + 26 * hour) (t_login + 26 * hour);
   Logout].

(** Durable storage whose [user] entry is not JSON. *)
Definition corrupted : Storage :=
  <["isAuthenticated" := "true"]> (<["user" := "{bad"]> ∅).

(** Durable storage whose [user] entry is the JSON text of [null]. *)
Definition null_seeded : Storage :=
  <["isAuthenticated" := "true"]> (<["user" := "null"]> ∅).

(** Durable storage whose [user] entry is the empty text. *)
Definition emptied : Storage :=
  <["isAuthenticated" := "true"]> (<["user" := ""]> ∅).

End Scenario.

(** * The pages that use the provider

    [LoginPage], [DashboardPage], [SignUpPage] and [ForgotPasswordPage]: the
    [useState] cells of each page, its event handlers, and what its render
    and effects compute from them.  Markup and styling are left out. *)

(** ** Computations over any state

    The state-and-exception computations of the provider, for a state of
    any type, so that a page handler can run over its own cells together
    with the provider state. *)

Module Comp.

Definition C (St A : Type) : Type := St -> completion A * St.

#[global] Instance C_ret (St : Type) : MRet (C St) := fun A a s => (Normal a, s).

#[global] Instance C_bind (St : Type) : MBind (C St) := fun A B f m s =>
  match m s with
  | (Normal a, s') => f a s'
  | (Throw e, s') => (Throw e, s')
  end.

Definition throw {St A : Type} (e : JSError) : C St A := fun s => (Throw e, s).

Definition try_catch {St A : Type} (body : C St A) (handler : JSError -> C St A) : C St A :=
  fun s =>
    match body s with
    | (Normal a, s') => (Normal a, s')
    | (Throw e, s') => handler e s'
    end.

Definition try_finally {St A : Type} (body : C St A) (final : C St unit) : C St A :=
  fun s =>
    match body s with
    | (c, s') =>
        match final s' with
        | (Normal _, s'') => (c, s'')
        | (Throw e, s'') => (Throw e, s'')
        end
    end.

Definition when {St : Type} (c : bool) (body : C St unit) : C St unit :=
  if c then body else mret tt.

(** A state setter called with an updater function. *)
Definition modify {St : Type} (f : St -> St) : C St unit := fun s => (Normal tt, f s).

(** Reading a cell of the render that created the handler. *)
Definition gets {St A : Type} (f : St -> A) : C St A := fun s => (Normal (f s), s).

(** A computation of the page cells, run beside the provider state. *)
Definition page {P Q A : Type} (m : C P A) : C (P * Q) A := fun s =>
  match m (fst s) with
  | (c, p') => (c, (p', snd s))
  end.

(** A provider operation, run beside the page cells. *)
Definition provider {P A : Type} (m : M A) : C (P * AuthState) A := fun s =>
  match m (snd s) with
  | (c, a') => (c, (fst s, a'))
  end.

Definition exec {St A : Type} (m : C St A) (s : St) : St := snd (m s).

End Comp.

(** ** What the pages share *)

(** [validateEmail], defined with the same pattern in [LoginPage],
    [SignUpPage] and [ForgotPasswordPage]. *)
Definition validateEmail (email : string) : bool := Regex.test emailRegex email.

(** The [toast] cell. *)
Record ToastState : Type := mkToast {
  toast_show : bool;
  toast_message : string;
  toast_type : string
}.

(** [{ show: false, message: '', type: '' }] *)
Definition no_toast : ToastState :=
  {| toast_show := false; toast_message := ""; toast_type := "" |}.

(** [!value] for a string. *)
Definition is_empty (value : string) : bool := String.eqb value "".

(** [Object.keys(errors).length > 0] *)
Definition has_keys (errors : props) : bool := (0 <? length errors)%nat.

(** [Object.values(errors).some(error => error)] *)
Definition some_error (errors : props) : bool :=
  existsb (fun kv => truthy (snd kv)) errors.

(** [setErrors(prev => ({ ...prev, [key]: message }))] as a function of
    [prev]. *)
Definition with_error (key message : string) (prev : props) : props :=
  set_prop key (JStr message) (spread_into [] prev).

(** The members of the object the provider passes to its consumers. *)
Definition context_members : list string :=
  ["user"; "isAuthenticated"; "isLoading"; "login"; "logout"; "updateUser";
   "validateSession"].

(** Whether destructuring the result of [useAuth()] finds a member of that
    name; otherwise the variable is [undefined]. *)
Definition provides (name : string) : bool :=
  existsb (String.eqb name) context_members.

(** ** LoginPage *)

Module LoginPage.

Record FormData : Type := mkFormData {
  email : string;
  password : string;
  rememberMe : bool
}.

Record State : Type := mkState {
  formData : FormData;
  showPassword : bool;
  errors : props;
  toast : ToastState;
  isSubmitting : bool;
  (** pending [setTimeout(() => navigate(path), delay)] calls *)
  timers : list (Z * string)
}.

Definition initial : State :=
  {| formData := {| email := ""; password := ""; rememberMe := false |};
     showPassword := false; errors := []; toast := no_toast;
     isSubmitting := false; timers := [] |}.

Definition setFormData (f : FormData -> FormData) : Comp.C State unit :=
  Comp.modify (fun s => mkState (f (formData s)) (showPassword s) (errors s)
                                (toast s) (isSubmitting s) (timers s)).

Definition setErrors (f : props -> props) : Comp.C State unit :=
  Comp.modify (fun s => mkState (formData s) (showPassword s) (f (errors s))
                                (toast s) (isSubmitting s) (timers s)).

Definition setToast (t : ToastState) : Comp.C State unit :=
  Comp.modify (fun s => mkState (formData s) (showPassword s) (errors s)
                                t (isSubmitting s) (timers s)).

Definition setIsSubmitting (b : bool) : Comp.C State unit :=
  Comp.modify (fun s => mkState (formData s) (showPassword s) (errors s)
                                (toast s) b (timers s)).

(** [setTimeout(() => { navigate(path) }, delay)] *)
Definition navigate_after (delay : Z) (path : string) : Comp.C State unit :=
  Comp.modify (fun s => mkState (formData s) (showPassword s) (errors s)
                                (toast s) (isSubmitting s)
                                (timers s ++ [(delay, path)])%list).

(** The change events of the three inputs of the form: the [email] and
    [password] text inputs carry their text, the [rememberMe] checkbox
    carries [checked]. *)
Inductive Change : Type :=
| EmailChange (value : string) : Change
| PasswordChange (value : string) : Change
| RememberMeChange (checked : bool) : Change.

(** [handleInputChange]; the two validation blocks of the source are
    guarded by the name of the input, here the constructor. *)
Definition handleInputChange (e : Change) : Comp.C State unit :=
  match e with
  | EmailChange value =>
      setFormData (fun prev => mkFormData value (password prev) (rememberMe prev));;
      Comp.when (negb (is_empty value))
        (if negb (validateEmail value)
         then setErrors (with_error "email" "Please enter a valid email address")
         else setErrors (with_error "email" ""))
  | PasswordChange value =>
      setFormData (fun prev => mkFormData (email prev) value (rememberMe prev));;
      Comp.when (negb (is_empty value))
        (if (String.length value <? 6)%nat
         then setErrors (with_error "password" "Password must be at least 6 characters")
         else setErrors (with_error "password" ""))
  | RememberMeChange checked =>
      setFormData (fun prev => mkFormData (email prev) (password prev) checked)
  end.

(** The object [newErrors] that [handleSubmit] builds. *)
Definition form_errors (form : FormData) : props :=
  let newErrors : props := [] in
  let newErrors :=
    if is_empty (email form) then
      set_prop "email" (JStr "Email is required") newErrors
    else if negb (validateEmail (email form)) then
      set_prop "email" (JStr "Please enter a valid email address") newErrors
    else newErrors in
  let newErrors :=
    if is_empty (password form) then
      set_prop "password" (JStr "Password is required") newErrors
    else if (String.length (password form) <? 6)%nat then
      set_prop "password" (JStr "Password must be at least 6 characters") newErrors
    else newErrors in
  newErrors.

(** [handleSubmit], over the page cells and the provider state; [login] is
    the provider's, [t_date] and [t_now] its clock readings.  The early
    [return] after a failed validation is the [then] branch. *)
Definition handleSubmit (login : string -> string -> bool -> M bool)
    : Comp.C (State * AuthState) unit :=
  Comp.page (setIsSubmitting true);;
  form ← Comp.gets (fun s => formData (fst s));
  let newErrors := form_errors form in
  Comp.page (setErrors (fun _ => newErrors));;
  if has_keys newErrors then
    Comp.page (setIsSubmitting false);;
    Comp.page (setToast (mkToast true "Please fix the errors above" "error"))
  else
    Comp.try_finally
      (Comp.try_catch
         (success ← Comp.provider (login (email form) (password form) (rememberMe form));
          if (success : bool) then
            Comp.page (setToast (mkToast true "Login successful! Redirecting..." "success"));;
            Comp.page (navigate_after 1000 "/dashboard")
          else
            Comp.page (setToast (mkToast true "Login failed. Please check your credentials." "error")))
         (fun error =>
            Comp.page (setToast (mkToast true "An error occurred. Please try again." "error"))))
      (Comp.page (setIsSubmitting false)).

(** The [disabled] attribute of the submit button. *)
Definition submit_disabled (s : State) : bool :=
  isSubmitting s || some_error (errors s).

(** The effect of the page: where it sends an authenticated visitor. *)
Definition redirect (isAuthenticated : bool) : option string :=
  if isAuthenticated then Some "/dashboard" else None.

(** A sequence of change events, each handled by the render that follows
    the previous one. *)
Definition changes (events : list Change) (s : State) : State :=
  fold_left (fun s e => Comp.exec (handleInputChange e) s) events s.

End LoginPage.

(** ** Patterns without anchors

    [RegExp.prototype.test] for a pattern without [^] and [$]: a match
    anywhere in the subject. *)

Definition any_char : Regex.regex := Regex.Class (fun _ => true).

Definition regex_search (r : Regex.regex) (s : string) : bool :=
  Regex.test
    (Regex.Seq (Regex.Star any_char) (Regex.Seq r (Regex.Star any_char))) s.

(** A range [lo-hi] of a character class. *)
Definition in_range (lo hi c : ascii) : bool :=
  ((nat_of_ascii lo <=? nat_of_ascii c) && (nat_of_ascii c <=? nat_of_ascii hi))%nat.

(** [[A-Z]], [[a-z]], [[0-9]] and [[^A-Za-z0-9]] *)
Definition upper_case (c : ascii) : bool := in_range "A" "Z" c.
Definition lower_case (c : ascii) : bool := in_range "a" "z" c.
Definition digit (c : ascii) : bool := in_range "0" "9" c.
Definition special (c : ascii) : bool :=
  negb (upper_case c || lower_case c || digit c).

(** ** SignUpPage *)

Module SignUpPage.

Record FormData : Type := mkFormData {
  firstName : string;
  lastName : string;
  email : string;
  password : string;
  confirmPassword : string;
  agreeToTerms : bool
}.

Record State : Type := mkState {
  formData : FormData;
  showPassword : bool;
  showConfirmPassword : bool;
  errors : props;
  toast : ToastState;
  isSubmitting : bool;
  passwordStrength : Z;
  (** pending [setTimeout(() => navigate(path), delay)] calls *)
  timers : list (Z * string)
}.

Definition initial : State :=
  {| formData := mkFormData "" "" "" "" "" false;
     showPassword := false; showConfirmPassword := false; errors := [];
     toast := no_toast; isSubmitting := false; passwordStrength := 0;
     timers := [] |}.

Definition setFormData (f : FormData -> FormData) : Comp.C State unit :=
  Comp.modify (fun s => mkState (f (formData s)) (showPassword s)
                                (showConfirmPassword s) (errors s) (toast s)
                                (isSubmitting s) (passwordStrength s) (timers s)).

Definition setErrors (f : props -> props) : Comp.C State unit :=
  Comp.modify (fun s => mkState (formData s) (showPassword s)
                                (showConfirmPassword s) (f (errors s)) (toast s)
                                (isSubmitting s) (passwordStrength s) (timers s)).

Definition setToast (t : ToastState) : Comp.C State unit :=
  Comp.modify (fun s => mkState (formData s) (showPassword s)
                                (showConfirmPassword s) (errors s) t
                                (isSubmitting s) (passwordStrength s) (timers s)).

Definition setIsSubmitting (b : bool) : Comp.C State unit :=
  Comp.modify (fun s => mkState (formData s) (showPassword s)
                                (showConfirmPassword s) (errors s) (toast s)
                                b (passwordStrength s) (timers s)).

Definition setPasswordStrength (n : Z) : Comp.C State unit :=
  Comp.modify (fun s => mkState (formData s) (showPassword s)
                                (showConfirmPassword s) (errors s) (toast s)
                                (isSubmitting s) n (timers s)).

Definition navigate_after (delay : Z) (path : string) : Comp.C State unit :=
  Comp.modify (fun s => mkState (formData s) (showPassword s)
                                (showConfirmPassword s) (errors s) (toast s)
                                (isSubmitting s) (passwordStrength s)
                                (timers s ++ [(delay, path)])%list).

Definition calculatePasswordStrength (password : string) : Z :=
  let strength := 0 in
  let strength :=
    if (8 <=? String.length password)%nat then strength + 1 else strength in
  let strength :=
    if regex_search (Regex.Class upper_case) password then strength + 1 else strength in
  let strength :=
    if regex_search (Regex.Class lower_case) password then strength + 1 else strength in
  let strength :=
    if regex_search (Regex.Class digit) password then strength + 1 else strength in
  let strength :=
    if regex_search (Regex.Class special) password then strength + 1 else strength in
  strength.

Record StrengthLevel : Type := mkLevel {
  text : string;
  color : string;
  bgColor : string
}.

Definition strengthLevels : list StrengthLevel :=
  [mkLevel "Very Weak" "text-red-500" "bg-red-500";
   mkLevel "Weak" "text-orange-500" "bg-orange-500";
   mkLevel "Fair" "text-yellow-500" "bg-yellow-500";
   mkLevel "Good" "text-blue-500" "bg-blue-500";
   mkLevel "Strong" "text-green-500" "bg-green-500"].

(** [array[n]] for an integer [n]: [undefined] outside the array. *)
Definition element {A : Type} (xs : list A) (n : Z) : option A :=
  if n <? 0 then None else xs !! Z.to_nat n.

(** [strengthLevels[strength] || strengthLevels[0]]; the elements are
    objects, hence truthy. *)
Definition getPasswordStrengthInfo (strength : Z) : option StrengthLevel :=
  match element strengthLevels strength with
  | Some level => Some level
  | None => element strengthLevels 0
  end.

(** The change events of the six inputs of the form. *)
Inductive Change : Type :=
| FirstNameChange (value : string) : Change
| LastNameChange (value : string) : Change
| EmailChange (value : string) : Change
| PasswordChange (value : string) : Change
| ConfirmPasswordChange (value : string) : Change
| AgreeToTermsChange (checked : bool) : Change.

Definition set_field (e : Change) (prev : FormData) : FormData :=
  match e with
  | FirstNameChange value =>
      mkFormData value (lastName prev) (email prev) (password prev)
                 (confirmPassword prev) (agreeToTerms prev)
  | LastNameChange value =>
      mkFormData (firstName prev) value (email prev) (password prev)
                 (confirmPassword prev) (agreeToTerms prev)
  | EmailChange value =>
      mkFormData (firstName prev) (lastName prev) value (password prev)
                 (confirmPassword prev) (agreeToTerms prev)
  | PasswordChange value =>
      mkFormData (firstName prev) (lastName prev) (email prev) value
                 (confirmPassword prev) (agreeToTerms prev)
  | ConfirmPasswordChange value =>
      mkFormData (firstName prev) (lastName prev) (email prev) (password prev)
                 value (agreeToTerms prev)
  | AgreeToTermsChange checked =>
      mkFormData (firstName prev) (lastName prev) (email prev) (password prev)
                 (confirmPassword prev) checked
  end.

(** [handleInputChange]; the validation blocks of the source are guarded by
    the name of the input, here the constructor.  [formData] in the
    [password] and [confirmPassword] blocks is the cell of the render that
    created the handler, read before the update. *)
Definition handleInputChange (e : Change) : Comp.C State unit :=
  form ← Comp.gets formData;
  setFormData (set_field e);;
  match e with
  | FirstNameChange value =>
      Comp.when (negb (is_empty value))
        (if (String.length value <? 2)%nat
         then setErrors (with_error "firstName" "First name must be at least 2 characters")
         else setErrors (with_error "firstName" ""))
  | LastNameChange value =>
      Comp.when (negb (is_empty value))
        (if (String.length value <? 2)%nat
         then setErrors (with_error "lastName" "Last name must be at least 2 characters")
         else setErrors (with_error "lastName" ""))
  | EmailChange value =>
      Comp.when (negb (is_empty value))
        (if negb (validateEmail value)
         then setErrors (with_error "email" "Please enter a valid email address")
         else setErrors (with_error "email" ""))
  | PasswordChange value =>
      let strength := calculatePasswordStrength value in
      setPasswordStrength strength;;
      (if negb (is_empty value) && (String.length value <? 8)%nat
       then setErrors (with_error "password" "Password must be at least 8 characters")
       else setErrors (with_error "password" ""));;
      (if negb (is_empty (confirmPassword form))
          && negb (String.eqb value (confirmPassword form))
       then setErrors (with_error "confirmPassword" "Passwords do not match")
       else Comp.when (negb (is_empty (confirmPassword form)))
              (setErrors (with_error "confirmPassword" "")))
  | ConfirmPasswordChange value =>
      Comp.when (negb (is_empty value))
        (if negb (String.eqb value (password form))
         then setErrors (with_error "confirmPassword" "Passwords do not match")
         else setErrors (with_error "confirmPassword" ""))
  | AgreeToTermsChange checked => mret tt
  end.

(** The object [newErrors] that [handleSubmit] builds. *)
Definition form_errors (form : FormData) : props :=
  let newErrors : props := [] in
  let newErrors :=
    if is_empty (firstName form) then
      set_prop "firstName" (JStr "First name is required") newErrors
    else if (String.length (firstName form) <? 2)%nat then
      set_prop "firstName" (JStr "First name must be at least 2 characters") newErrors
    else newErrors in
  let newErrors :=
    if is_empty (lastName form) then
      set_prop "lastName" (JStr "Last name is required") newErrors
    else if (String.length (lastName form) <? 2)%nat then
      set_prop "lastName" (JStr "Last name must be at least 2 characters") newErrors
    else newErrors in
  let newErrors :=
    if is_empty (email form) then
      set_prop "email" (JStr "Email is required") newErrors
    else if negb (validateEmail (email form)) then
      set_prop "email" (JStr "Please enter a valid email address") newErrors
    else newErrors in
  let newErrors :=
    if is_empty (password form) then
      set_prop "password" (JStr "Password is required") newErrors
    else if (String.length (password form) <? 8)%nat then
      set_prop "password" (JStr "Password must be at least 8 characters") newErrors
    else newErrors in
  let newErrors :=
    if is_empty (confirmPassword form) then
      set_prop "confirmPassword" (JStr "Please confirm your password") newErrors
    else if negb (String.eqb (password form) (confirmPassword form)) then
      set_prop "confirmPassword" (JStr "Passwords do not match") newErrors
    else newErrors in
  let newErrors :=
    if negb (agreeToTerms form) then
      set_prop "agreeToTerms" (JStr "You must agree to the terms and conditions") newErrors
    else newErrors in
  newErrors.

(** The argument of [signup]. *)
Record SignupData : Type := mkSignupData {
  signup_firstName : string;
  signup_lastName : string;
  signup_email : string;
  signup_password : string
}.

(** Calling the variable [signup]: a [TypeError], carried as an [Error]
    with its message, when the variable is [undefined]. *)
Definition call_signup (signup : option (SignupData -> M bool))
    (data : SignupData) : Comp.C (State * AuthState) bool :=
  match signup with
  | Some f => Comp.provider (f data)
  | None => Comp.throw (Error "TypeError: signup is not a function")
  end.

(** [handleSubmit]; [signup] is what destructuring [useAuth()] gave the
    page, [None] for [undefined]. *)
Definition handleSubmit (signup : option (SignupData -> M bool))
    : Comp.C (State * AuthState) unit :=
  Comp.page (setIsSubmitting true);;
  form ← Comp.gets (fun s => formData (fst s));
  let newErrors := form_errors form in
  Comp.page (setErrors (fun _ => newErrors));;
  if has_keys newErrors then
    Comp.page (setIsSubmitting false);;
    Comp.page (setToast (mkToast true "Please fix the errors above" "error"))
  else
    Comp.try_finally
      (Comp.try_catch
         (success ← call_signup signup
                      (mkSignupData (firstName form) (lastName form)
                                    (email form) (password form));
          if (success : bool) then
            Comp.page (setToast (mkToast true "Account created successfully! Redirecting..." "success"));;
            Comp.page (navigate_after 1000 "/dashboard")
          else
            Comp.page (setToast (mkToast true "Registration failed. Please try again." "error")))
         (fun error =>
            Comp.page (setToast (mkToast true "An error occurred. Please try again." "error"))))
      (Comp.page (setIsSubmitting false)).

(** The [signup] the page gets from this provider: the object the provider
    passes has no member of that name, so the variable is [undefined]. *)
Definition provided_signup : option (SignupData -> M bool) := None.

(** The [disabled] attribute of the submit button. *)
Definition submit_disabled (s : State) : bool :=
  isSubmitting s || some_error (errors s) || negb (agreeToTerms (formData s)).

Definition redirect (isAuthenticated : bool) : option string :=
  if isAuthenticated then Some "/dashboard" else None.

(** A sequence of change events, each handled by the render that follows
    the previous one. *)
Definition changes (events : list Change) (s : State) : State :=
  fold_left (fun s e => Comp.exec (handleInputChange e) s) events s.

End SignUpPage.

(** The sign-up form passes every check of [handleSubmit]: names of at least
    2 characters, an accepted e-mail, a password of at least 8 characters
    repeated identically, the terms agreed. *)
Definition signup_form_complete (form : SignUpPage.FormData) : Prop :=
  (2 <= String.length (SignUpPage.firstName form))%nat /\
  (2 <= String.length (SignUpPage.lastName form))%nat /\
  validateEmail (SignUpPage.email form) = true /\
  (8 <= String.length (SignUpPage.password form))%nat /\
  SignUpPage.confirmPassword form = SignUpPage.password form /\
  SignUpPage.agreeToTerms form = true.

(** ** ForgotPasswordPage *)

Module ForgotPasswordPage.

Record State : Type := mkState {
  email : string;
  isSubmitting : bool;
  isSuccess : bool;
  error : string;
  toast : ToastState
}.

Definition initial : State :=
  {| email := ""; isSubmitting := false; isSuccess := false; error := "";
     toast := no_toast |}.

Definition setEmail (v : string) : Comp.C State unit :=
  Comp.modify (fun s => mkState v (isSubmitting s) (isSuccess s) (error s) (toast s)).

Definition setIsSubmitting (b : bool) : Comp.C State unit :=
  Comp.modify (fun s => mkState (email s) b (isSuccess s) (error s) (toast s)).

Definition setIsSuccess (b : bool) : Comp.C State unit :=
  Comp.modify (fun s => mkState (email s) (isSubmitting s) b (error s) (toast s)).

Definition setError (msg : string) : Comp.C State unit :=
  Comp.modify (fun s => mkState (email s) (isSubmitting s) (isSuccess s) msg (toast s)).

Definition setToast (t : ToastState) : Comp.C State unit :=
  Comp.modify (fun s => mkState (email s) (isSubmitting s) (isSuccess s) (error s) t).

Definition handleEmailChange (value : string) : Comp.C State unit :=
  setEmail value;;
  if negb (is_empty value) && negb (validateEmail value)
  then setError "Please enter a valid email address"
  else setError "".

(** [handleSubmit]; the simulated request is a timer that always resolves.
    The two early [return]s are the [then] branches. *)
Definition handleSubmit : Comp.C State unit :=
  email ← Comp.gets email;
  if is_empty email then setError "Email is required"
  else if negb (validateEmail email) then
    setError "Please enter a valid email address"
  else
    setIsSubmitting true;;
    setError "";;
    Comp.try_finally
      (Comp.try_catch
         (setIsSuccess true;;
          setToast (mkToast true "Password reset instructions sent to your email!" "success"))
         (fun error =>
            setError "Failed to send reset email. Please try again.";;
            setToast (mkToast true "Failed to send reset email. Please try again." "error")))
      (setIsSubmitting false).

(** The [disabled] attribute of the submit button:
    [isSubmitting || error || !email]. *)
Definition submit_disabled (s : State) : bool :=
  isSubmitting s || negb (is_empty (error s)) || is_empty (email s).

End ForgotPasswordPage.

(** ** DashboardPage *)

Module DashboardPage.

(** [handleLogout]; [confirmed] is the answer of [window.confirm], [logout]
    the provider's, the list is the [navigate] calls made so far. *)
Definition handleLogout (confirmed : bool) : Comp.C (list string * AuthState) unit :=
  Comp.when confirmed
    (Comp.provider logout;;
     Comp.page (Comp.modify (fun calls => (calls ++ ["/login"])%list))).

Definition redirect (isAuthenticated : bool) : option string :=
  if negb isAuthenticated then Some "/login" else None.

End DashboardPage.

(** ** App: the route table and the redirects of the pages *)

Module App.

Inductive Page : Type :=
| Login : Page
| SignUp : Page
| Dashboard : Page
| ForgotPassword : Page.

(** The [Route] elements, at the paths written in the source. *)
Definition routes : list (string * Page) :=
  [("/", Login); ("/login", Login); ("/signup", SignUp);
   ("/dashboard", Dashboard); ("/forgot-password", ForgotPassword)].

Fixpoint route_of (table : list (string * Page)) (path : string) : option Page :=
  match table with
  | [] => None
  | (p, page) :: rest => if String.eqb p path then Some page else route_of rest path
  end.

(** The redirect effect of each page. *)
Definition redirect (page : Page) (isAuthenticated : bool) : option string :=
  match page with
  | Login => LoginPage.redirect isAuthenticated
  | SignUp => SignUpPage.redirect isAuthenticated
  | Dashboard => DashboardPage.redirect isAuthenticated
  | ForgotPassword => None
  end.

(** Render the page at [path] and run its redirect effect: the location
    afterwards. *)
Definition settle (isAuthenticated : bool) (path : string) : string :=
  match route_of routes path with
  | Some page => default path (redirect page isAuthenticated)
  | None => path
  end.

(** Opening the application at [path]: the pages first render over the
    mount state, then the bootstrap runs and the page shown then renders
    again. *)
Definition landing (JSON_parse : string -> option JSValue)
    (ls ss : Storage) (path : string) : string :=
  let first := settle (isAuthenticated (mount ls ss)) path in
  settle (isAuthenticated (exec (initializeAuth JSON_parse) (mount ls ss))) first.

End App.

(** ** Further scenarios *)

Module Visit.

(** Durable storage with an entry of another part of the site beside the
    remembered Session. *)
Definition themed : Storage :=
  <["theme" := "dark"]> (localStorage Scenario.remembered).

(** An update that blanks the login time. *)
Definition no_login_time : JSValue := JObj [("loginTime", JStr "")].

(** The fields of the Session of [Scenario.remembered]. *)
Definition session_fields : props :=
  [("email", JStr "a@b.co"); ("rememberMe", JBool true);
   ("loginTime", JStr "2023-11-14T22:13:20.123Z");
   ("id", JStr "1700000000123")].

End Visit.

(** * Properties *)

(** ** The matcher decides the language of its pattern *)

Module RegexFacts.
Import Regex.

Lemma append_empty_inv (s1 s2 : string) : s1 +:+ s2 = "" -> s1 = "" /\ s2 = "".
Proof. destruct s1; simpl; [auto | discriminate]. Qed.

Lemma lang_seq_inv r1 r2 s :
  lang (Seq r1 r2) s <-> exists s1 s2, s = s1 +:+ s2 /\ lang r1 s1 /\ lang r2 s2.
Proof.
  split.
  - inversion 1; subst; eauto.
  - intros (s1 & s2 & -> & H1 & H2). auto with regex.
Qed.

Lemma nullable_lang r : nullable r = true <-> lang r "".
Proof.
  split.
  - induction r; simpl; intros Hn; try discriminate; auto with regex.
    + apply andb_true_iff in Hn as [H1 H2].
      change "" with ("" +:+ ""). auto with regex.
    + apply orb_true_iff in Hn as [H1 | H2]; auto with regex.
  - intros H. remember "" as s eqn:Es.
    induction H; simpl; try discriminate; auto.
    + apply append_empty_inv in Es as [-> ->].
      rewrite IHlang1, IHlang2; auto.
    + rewrite IHlang; auto.
    + rewrite IHlang, orb_true_r; auto.
Qed.

Lemma deriv_sound c r : forall s, lang (deriv c r) s -> lang r (String c s).
Proof.
  induction r; simpl; intros s H.
  - inversion H.
  - inversion H.
  - destruct (p c) eqn:Hp; inversion H; subst. auto with regex.
  - assert (Hseq : forall s, lang (Seq (deriv c r1) r2) s -> lang (Seq r1 r2) (String c s)).
    { clear H s. intros s H. apply lang_seq_inv in H as (s1 & s2 & -> & H1 & H2).
      change (String c (s1 +:+ s2)) with (String c s1 +:+ s2). auto with regex. }
    destruct (nullable r1) eqn:Hn; [| auto].
    inversion H; subst; [auto |].
    change (String c s) with ("" +:+ String c s).
    apply lang_seq; [apply nullable_lang | ]; auto.
  - inversion H; subst; auto with regex.
  - apply lang_seq_inv in H as (s1 & s2 & -> & H1 & H2).
    change (String c (s1 +:+ s2)) with (String c s1 +:+ s2). auto with regex.
Qed.

Lemma deriv_complete r s0 :
  lang r s0 -> forall c w, s0 = String c w -> lang (deriv c r) w.
Proof.
  induction 1; intros a w Es; simpl; try discriminate.
  - injection Es as -> <-. rewrite H. auto with regex.
  - destruct s1 as [| c1 s1']; simpl in Es.
    + apply nullable_lang in H. rewrite H.
      apply lang_alt_r; auto.
    + injection Es as -> <-.
      assert (lang (Seq (deriv a r1) r2) (s1' +:+ s2)) by auto with regex.
      destruct (nullable r1); auto with regex.
  - auto with regex.
  - auto with regex.
  - destruct s1 as [| c1 s1']; simpl in Es.
    + apply (IHlang2 _ _ Es).
    + injection Es as -> <-. auto with regex.
Qed.

Lemma deriv_lang c r s : lang (deriv c r) s <-> lang r (String c s).
Proof. split; [apply deriv_sound | intros H; eapply deriv_complete; eauto]. Qed.

Lemma test_lang r s : test r s = true <-> lang r s.
Proof.
  revert r. induction s as [| c s IH]; intros r; simpl.
  - apply nullable_lang.
  - rewrite IH. apply deriv_lang.
Qed.

Lemma lang_lit c s : lang (Lit c) s <-> s = String c "".
Proof.
  unfold Lit. split.
  - inversion 1; subst. apply Ascii.eqb_eq in H1. congruence.
  - intros ->. apply lang_class, Ascii.eqb_refl.
Qed.

Lemma lang_star_class p s :
  lang (Star (Class p)) s <-> forall c, In c (list_ascii_of_string s) -> p c = true.
Proof.
  split.
  - intros H. remember (Star (Class p)) as r eqn:Er.
    induction H; try discriminate; injection Er as ->.
    + simpl. tauto.
    + inversion H; subst. simpl. intros c' [<- | Hin]; auto.
  - induction s as [| c s IH]; simpl; intros Hall.
    + auto with regex.
    + change (String c s) with (String c "" +:+ s).
      apply lang_star_cons; auto with regex.
Qed.

Lemma lang_plus_class p s :
  lang (Plus (Class p)) s <->
  s <> "" /\ forall c, In c (list_ascii_of_string s) -> p c = true.
Proof.
  unfold Plus. rewrite lang_seq_inv. split.
  - intros (s1 & s2 & -> & H1 & H2). inversion H1; subst. simpl. split; [discriminate |].
    rewrite lang_star_class in H2. intros c' [<- | Hin]; auto.
  - intros [Hne Hall]. destruct s as [| c s]; [congruence |].
    exists (String c ""), s. simpl in Hall. split; [reflexivity |].
    split; [auto with regex | apply lang_star_class; auto].
Qed.

End RegexFacts.

(** ** The e-mail pattern accepts exactly the described shape *)

Lemma not_space_at_spec c :
  not_space_at c = true <-> white_space c = false /\ c <> "@"%char.
Proof.
  unfold not_space_at.
  rewrite andb_true_iff, !negb_true_iff, Ascii.eqb_neq. tauto.
Qed.

Lemma lang_plain s : Regex.lang (Regex.Plus (Regex.Class not_space_at)) s <-> plain s.
Proof.
  rewrite RegexFacts.lang_plus_class. unfold plain.
  split; intros [Hne Hall]; split; auto; intros c Hc; apply not_space_at_spec; auto.
Qed.

Lemma emailRegex_shape email : Regex.test emailRegex email = true <-> email_shape email.
Proof.
  rewrite RegexFacts.test_lang. unfold emailRegex, email_shape. split.
  - intros H.
    apply RegexFacts.lang_seq_inv in H as (a & r1 & -> & Ha & H).
    apply RegexFacts.lang_seq_inv in H as (at_ & r2 & -> & Hat & H).
    apply RegexFacts.lang_seq_inv in H as (b & r3 & -> & Hb & H).
    apply RegexFacts.lang_seq_inv in H as (dot & c & -> & Hdot & Hc).
    apply RegexFacts.lang_lit in Hat as ->. apply RegexFacts.lang_lit in Hdot as ->.
    exists a, b, c. rewrite <- !lang_plain. auto.
  - intros (a & b & c & -> & Ha & Hb & Hc). rewrite <- lang_plain in Ha, Hb, Hc.
    apply Regex.lang_seq; [assumption |].
    apply (Regex.lang_seq _ _ "@"); [apply RegexFacts.lang_lit; reflexivity |].
    apply Regex.lang_seq; [assumption |].
    apply (Regex.lang_seq _ _ "."); [apply RegexFacts.lang_lit; reflexivity | assumption].
Qed.

Lemma emailRegex_not_shape email : Regex.test emailRegex email = false <-> ~ email_shape email.
Proof.
  rewrite <- emailRegex_shape. destruct (Regex.test emailRegex email); split; congruence.
Qed.

(** ** Object spread *)

Lemma get_prop_set_prop k k' v ps :
  get_prop k (set_prop k' v ps) =
  if String.eqb k' k then Some v else get_prop k ps.
Proof.
  induction ps as [| [k0 v0] ps IH]; simpl.
  - reflexivity.
  - destruct (String.eqb k0 k') eqn:E0; simpl.
    + apply String.eqb_eq in E0 as ->.
      destruct (String.eqb k' k); reflexivity.
    + destruct (String.eqb k0 k) eqn:E1; [| exact IH].
      apply String.eqb_eq in E1 as ->. rewrite String.eqb_sym, E0. reflexivity.
Qed.

Lemma get_prop_app k ps qs :
  get_prop k (ps ++ qs)%list =
  match get_prop k ps with
  | Some v => Some v
  | None => get_prop k qs
  end.
Proof.
  induction ps as [| [k0 v0] ps IH]; simpl; [reflexivity |].
  destruct (String.eqb k0 k); auto.
Qed.

(** After a spread, a key reads as its last binding in the source, and as
    before when the source does not bind it. *)
Lemma get_prop_spread_into k src : forall acc,
  get_prop k (spread_into acc src) =
  match get_prop k (reverse src) with
  | Some v => Some v
  | None => get_prop k acc
  end.
Proof.
  unfold spread_into.
  induction src as [| [k0 v0] src IH]; intros acc; [reflexivity |].
  cbn [fold_left fst snd].
  rewrite IH, reverse_cons, get_prop_app, get_prop_set_prop. cbn [get_prop].
  destruct (get_prop k (reverse src)); [reflexivity |].
  destruct (String.eqb k0 k); reflexivity.
Qed.

Lemma get_prop_None k ps : get_prop k ps = None <-> k ∉ ps.*1.
Proof.
  induction ps as [| [k0 v0] ps IH]; simpl.
  - split; [intros _; apply not_elem_of_nil | reflexivity].
  - rewrite not_elem_of_cons. destruct (String.eqb k0 k) eqn:E.
    + apply String.eqb_eq in E. split; [discriminate | intros [? _]; congruence].
    + apply String.eqb_neq in E. rewrite IH. split; [auto | tauto].
Qed.

Lemma get_prop_reverse_None k ps :
  get_prop k ps = None -> get_prop k (reverse ps) = None.
Proof.
  rewrite !get_prop_None, fmap_reverse, elem_of_reverse. auto.
Qed.

Lemma set_prop_fresh k v ps : k ∉ ps.*1 -> set_prop k v ps = (ps ++ [(k, v)])%list.
Proof.
  induction ps as [| [k0 v0] ps IH]; simpl; [reflexivity |].
  rewrite not_elem_of_cons. intros [Hne Hnot].
  destruct (String.eqb k0 k) eqn:E.
  - apply String.eqb_eq in E. congruence.
  - rewrite IH by assumption. reflexivity.
Qed.

Lemma spread_into_fresh src : forall acc,
  NoDup ((acc ++ src)%list).*1 -> spread_into acc src = (acc ++ src)%list.
Proof.
  unfold spread_into.
  induction src as [| [k v] src IH]; intros acc Hnd; simpl.
  - rewrite app_nil_r. reflexivity.
  - assert (Hk : k ∉ acc.*1).
    { rewrite fmap_app in Hnd. apply NoDup_app in Hnd as (_ & Hdisj & _).
      intros Hin. apply (Hdisj k Hin). simpl. apply list_elem_of_here. }
    rewrite set_prop_fresh by assumption.
    rewrite IH; rewrite <- app_assoc; [reflexivity | exact Hnd].
Qed.

(** An object with each key once is its own copy. *)
Lemma spread_object_copy ps : NoDup ps.*1 -> spread_into [] ps = ps.
Proof. intros H. apply (spread_into_fresh ps []). exact H. Qed.

(** ** Storage entries *)

Lemma purged_lookup (tier : Storage) :
  delete "isAuthenticated" (delete "user" tier) !! "user" = None /\
  delete "isAuthenticated" (delete "user" tier) !! "isAuthenticated" = None.
Proof.
  split.
  - rewrite lookup_delete_ne by discriminate. apply lookup_delete_eq.
  - apply lookup_delete_eq.
Qed.

Lemma purged_twice (tier : Storage) :
  delete "isAuthenticated" (delete "user" (delete "isAuthenticated" (delete "user" tier))) =
  delete "isAuthenticated" (delete "user" tier).
Proof.
  apply map_eq. intros k.
  rewrite !lookup_delete. repeat case_decide; reflexivity.
Qed.

Lemma truthy_item_has_user (tier : Storage) :
  truthy_item (tier !! "user") = true -> has_user tier.
Proof.
  unfold has_user. destruct (tier !! "user"); [eauto | discriminate].
Qed.

Lemma has_user_written (tier : Storage) text : has_user (<["user" := text]> tier).
Proof. unfold has_user. rewrite lookup_insert_eq. eauto. Qed.

Lemma has_user_flagged (tier : Storage) text :
  has_user tier <-> has_user (<["isAuthenticated" := text]> tier).
Proof. unfold has_user. rewrite lookup_insert_ne by discriminate. reflexivity. Qed.

(** Evaluation of a computation: unfold the combinators down to the state
    records. *)
Ltac eval_M :=
  cbv beta delta
    [login logout updateUser validateSession initializeAuth
     try_catch try_finally when throw parse_item parse
     get_user setUser setIsAuthenticated setIsLoading
     LocalStorage.getItem LocalStorage.setItem LocalStorage.removeItem
     SessionStorage.getItem SessionStorage.setItem SessionStorage.removeItem
     with_localStorage with_sessionStorage
     mbind M_bind mret M_ret exec step];
  cbn [fst snd user isAuthenticated isLoading localStorage sessionStorage].

(** One transition, down to the operation it runs. *)
Ltac unfold_step := unfold step, exec.

(** A run, one transition after the other. *)
Ltac unfold_run := unfold run; cbn [fold_left].

Section Properties.

Set Default Proof Using "Type".

Context (JSON_stringify : JSValue -> string)
        (JSON_parse : string -> option JSValue)
        (Date_toISOString : Z -> string)
        (Date_valueOf : JSValue -> option Z).

Local Abbreviation login := (login JSON_stringify Date_toISOString).
Local Abbreviation updateUser := (updateUser JSON_stringify).
Local Abbreviation initializeAuth := (initializeAuth JSON_parse).
Local Abbreviation validateSession := (validateSession Date_valueOf).
Local Abbreviation new_session := (new_session Date_toISOString).
Local Abbreviation step := (step JSON_stringify JSON_parse Date_toISOString Date_valueOf).
Local Abbreviation run := (run JSON_stringify JSON_parse Date_toISOString Date_valueOf).

(** *** login *)

(** The state a successful login leaves. *)
Lemma login_accepts email password rememberMe t_date t_now s :
  Regex.test emailRegex email = true ->
  (6 <= String.length password)%nat ->
  login email password rememberMe t_date t_now s =
  (Normal true,
   let text := JSON_stringify (new_session email rememberMe t_date t_now) in
   {| user := new_session email rememberMe t_date t_now;
      isAuthenticated := true;
      isLoading := isLoading s;
      localStorage :=
        if rememberMe
        then <["isAuthenticated" := "true"]> (<["user" := text]> (localStorage s))
        else localStorage s;
      sessionStorage :=
        if rememberMe
        then sessionStorage s
        else <["isAuthenticated" := "true"]> (<["user" := text]> (sessionStorage s)) |}).
Proof.
  intros Hemail Hpw. eval_M. rewrite Hemail. cbn [negb].
  apply Nat.ltb_ge in Hpw. rewrite Hpw.
  destruct rememberMe; reflexivity.
Qed.

Lemma login_rejects email password rememberMe t_date t_now s :
  Regex.test emailRegex email = false \/ (String.length password < 6)%nat ->
  login email password rememberMe t_date t_now s = (Normal false, s).
Proof.
  intros H. eval_M.
  destruct (Regex.test emailRegex email); cbn [negb]; [| reflexivity].
  destruct H as [H | H]; [discriminate |].
  apply Nat.ltb_lt in H. rewrite H. reflexivity.
Qed.

(** C3.  When the e-mail does not have the checked shape or the password
    has fewer than 6 characters, [login] completes normally with [false]
    (the validation error is not thrown to the caller) and the whole state,
    [user], [isAuthenticated] and both storage tiers, is as before. *)
Theorem login_invalid_returns_false_unchanged
    email password rememberMe t_date t_now s :
  ~ email_shape email \/ (String.length password < 6)%nat ->
  login email password rememberMe t_date t_now s = (Normal false, s).
Proof.
  intros H. apply login_rejects.
  rewrite emailRegex_not_shape. exact H.
Qed.

(** C4.  [login] always returns a boolean; it returns [true] exactly when
    the e-mail has the described shape (a non-empty run of characters that
    are neither white space nor [@], then [@], then such a run, then a dot,
    then such a run) and the password has at least 6 characters; for a
    password shorter than 6 characters it returns [false] whatever the
    e-mail. *)
Theorem login_true_iff_valid email password rememberMe t_date t_now s :
  let result := fst (login email password rememberMe t_date t_now s) in
  (result = Normal true \/ result = Normal false) /\
  (result = Normal true <->
   email_shape email /\ (6 <= String.length password)%nat) /\
  ((String.length password < 6)%nat -> result = Normal false).
Proof.
  clear JSON_parse Date_valueOf. cbn zeta.
  destruct (Regex.test emailRegex email) eqn:Hemail;
    destruct (le_lt_dec 6 (String.length password)) as [Hpw | Hpw].
  - rewrite login_accepts by assumption. cbn [fst].
    rewrite <- emailRegex_shape.
    split; [auto |]. split; [tauto | lia].
  - rewrite login_rejects by auto. cbn [fst].
    split; [auto |]. split; [| auto].
    split; [discriminate | intros [_ ?]; lia].
  - rewrite login_rejects by auto. cbn [fst].
    rewrite <- emailRegex_shape, Hemail.
    split; [auto |]. split; [| auto].
    split; [discriminate | intros [? _]; discriminate].
  - rewrite login_rejects by auto. cbn [fst].
    split; [auto |]. split; [| auto].
    split; [discriminate | intros [_ ?]; lia].
Qed.

(** *** logout *)

Lemma logout_state s :
  logout s =
  (Normal tt,
   {| user := JNull; isAuthenticated := false; isLoading := isLoading s;
      localStorage := delete "isAuthenticated" (delete "user" (localStorage s));
      sessionStorage := delete "isAuthenticated" (delete "user" (sessionStorage s)) |}).
Proof. reflexivity. Qed.

(** C7.  After a successful login followed by [logout], neither storage
    tier has the [user] key or the [isAuthenticated] key, [user] is null and
    [isAuthenticated] is false, whichever tier the login wrote to and
    whatever the tiers held before. *)
Theorem login_then_logout_purges email password rememberMe t_date t_now s :
  fst (login email password rememberMe t_date t_now s) = Normal true ->
  let s' := exec logout (exec (login email password rememberMe t_date t_now) s) in
  localStorage s' !! "user" = None /\
  localStorage s' !! "isAuthenticated" = None /\
  sessionStorage s' !! "user" = None /\
  sessionStorage s' !! "isAuthenticated" = None /\
  user s' = JNull /\
  isAuthenticated s' = false.
Proof.
  intros _ s'. subst s'. unfold exec at 1. rewrite logout_state. cbn [snd].
  cbn [user isAuthenticated localStorage sessionStorage].
  set (s1 := exec (login email password rememberMe t_date t_now) s).
  pose proof (purged_lookup (localStorage s1)) as [? ?].
  pose proof (purged_lookup (sessionStorage s1)) as [? ?].
  auto 10.
Qed.

(** C9.  [logout] is idempotent: from every state it completes normally,
    and a second call right after the first leaves the state (in-memory
    fields and both tiers) that the first call left. *)
Theorem logout_idempotent s :
  fst (logout s) = Normal tt /\
  logout (exec logout s) = (Normal tt, exec logout s).
Proof.
  split; [reflexivity |].
  unfold exec. rewrite !logout_state. cbn [snd].
  cbn [user isAuthenticated isLoading localStorage sessionStorage].
  rewrite !purged_twice. reflexivity.
Qed.

(** *** validateSession *)

Lemma validateSession_expired now s t0 :
  session_since Date_valueOf s t0 ->
  maxSessionTime < now - t0 ->
  validateSession now s = (Normal false, exec logout s).
Proof.
  intros (Hu & lt & Hlt & Htruthy & Hdate) Hlate.
  eval_M.
  rewrite Hu, Hlt. cbn [truthy_opt andb]. rewrite Htruthy.
  cbn [mbind option_bind]. rewrite Hdate. cbn [fmap option_fmap option_map exceeds].
  apply Z.ltb_lt in Hlate. rewrite Hlate. reflexivity.
Qed.

Lemma validateSession_fresh now s t0 :
  session_since Date_valueOf s t0 ->
  now - t0 <= maxSessionTime ->
  validateSession now s = (Normal true, s).
Proof.
  intros (Hu & lt & Hlt & Htruthy & Hdate) Hfresh.
  eval_M.
  rewrite Hu, Hlt. cbn [truthy_opt andb]. rewrite Htruthy.
  cbn [mbind option_bind]. rewrite Hdate. cbn [fmap option_fmap option_map exceeds].
  apply Z.ltb_ge in Hfresh. rewrite Hfresh. reflexivity.
Qed.

Lemma validateSession_no_session now s :
  user s = JNull -> validateSession now s = (Normal true, s).
Proof.
  intros Hu. eval_M.
  rewrite Hu. reflexivity.
Qed.

(** Whatever the state, [validateSession] completes normally, and either
    passes and changes nothing or fails and has logged out. *)
Lemma validateSession_outcome now s :
  validateSession now s = (Normal true, s) \/
  validateSession now s = (Normal false, exec logout s).
Proof.
  eval_M.
  destruct (truthy (user s) && truthy_opt (member (user s) "loginTime")); [| auto].
  destruct (exceeds _ _); auto.
Qed.

(** C5.  With a Session whose [loginTime] is the instant [t0]:
    when more than 24 hours have passed since [t0], [validateSession]
    returns [false] and leaves the state [logout] leaves (no user, not
    authenticated, both tiers purged); when at most 24 hours have passed it
    returns [true] and the state is unchanged.  With no Session it returns
    [true] and the state is unchanged. *)
Theorem validateSession_expiry now s :
  (forall t0, session_since Date_valueOf s t0 ->
     (24 * 60 * 60 * 1000 < now - t0 ->
        validateSession now s = (Normal false, exec logout s) /\
        user (exec (validateSession now) s) = JNull /\
        isAuthenticated (exec (validateSession now) s) = false) /\
     (now - t0 <= 24 * 60 * 60 * 1000 ->
        validateSession now s = (Normal true, s))) /\
  (user s = JNull -> validateSession now s = (Normal true, s)).
Proof.
  split; [| apply validateSession_no_session].
  intros t0 Hs. split.
  - intros Hlate. unfold exec at 2 3.
    rewrite (validateSession_expired now s t0 Hs Hlate). auto.
  - apply validateSession_fresh. assumption.
Qed.

(** *** initializeAuth *)

(** The three ways the bootstrap ends. *)
Lemma initializeAuth_state s :
  initializeAuth s =
  (Normal tt,
   if truthy_item (localStorage s !! "user")
      && is_literal "true" (localStorage s !! "isAuthenticated")
   then
     match JSON_parse (default "null" (localStorage s !! "user")) with
     | Some parsed =>
         {| user := parsed; isAuthenticated := true; isLoading := false;
            localStorage := localStorage s; sessionStorage := sessionStorage s |}
     | None =>
         {| user := user s; isAuthenticated := isAuthenticated s; isLoading := false;
            localStorage := delete "isAuthenticated" (delete "user" (localStorage s));
            sessionStorage := sessionStorage s |}
     end
   else
     {| user := user s; isAuthenticated := isAuthenticated s; isLoading := false;
        localStorage := localStorage s; sessionStorage := sessionStorage s |}).
Proof.
  eval_M.
  destruct (truthy_item (localStorage s !! "user")
            && is_literal "true" (localStorage s !! "isAuthenticated")); [| reflexivity].
  destruct (JSON_parse (default "null" (localStorage s !! "user"))); reflexivity.
Qed.

(** C6 (amended).  When the durable [user] entry is a non-empty text that
    [JSON.parse] rejects and the durable [isAuthenticated] entry is the
    literal [true], the bootstrap completes normally (the parse error does
    not reach the caller), removes both durable keys, leaves an
    unauthenticated state unauthenticated with [user] untouched, leaves the
    ephemeral tier untouched, and sets [isLoading] to false. *)
Theorem initializeAuth_malformed_user_purged s raw :
  localStorage s !! "user" = Some raw ->
  raw <> "" ->
  JSON_parse raw = None ->
  localStorage s !! "isAuthenticated" = Some "true" ->
  isAuthenticated s = false ->
  let s' := exec initializeAuth s in
  fst (initializeAuth s) = Normal tt /\
  localStorage s' !! "user" = None /\
  localStorage s' !! "isAuthenticated" = None /\
  isAuthenticated s' = false /\
  user s' = user s /\
  isLoading s' = false /\
  sessionStorage s' = sessionStorage s.
Proof.
  intros Huser Hne Hparse Hflag Hanon s'. subst s'. unfold exec.
  rewrite initializeAuth_state. cbn [fst snd].
  rewrite Huser, Hflag. cbn [truthy_item is_literal].
  change (default "null" (Some raw)) with raw.
  apply String.eqb_neq in Hne. rewrite Hne, String.eqb_refl. cbn [negb andb].
  rewrite Hparse. cbn [user isAuthenticated isLoading localStorage sessionStorage].
  pose proof (purged_lookup (localStorage s)) as [? ?]. auto 10.
Qed.

(** *** updateUser *)

Lemma updateUser_state userData s :
  updateUser userData s =
  (Normal tt,
   let text := JSON_stringify (merge (user s) userData) in
   {| user := merge (user s) userData;
      isAuthenticated := isAuthenticated s;
      isLoading := isLoading s;
      localStorage :=
        if truthy_item (localStorage s !! "user")
        then <["user" := text]> (localStorage s) else localStorage s;
      sessionStorage :=
        if truthy_item (sessionStorage s !! "user")
        then <["user" := text]> (sessionStorage s) else sessionStorage s |}).
Proof.
  eval_M.
  destruct (truthy_item (localStorage s !! "user"));
    cbn [user isAuthenticated isLoading localStorage sessionStorage];
    destruct (truthy_item (sessionStorage s !! "user")); reflexivity.
Qed.

(** C8.  [updateUser] on a Session (an object, each key once): every field
    that [userData] does not name reads as before, every field it names
    reads as [userData] gives it (shallow merge); the text of the merged
    Session replaces the [user] entry of each tier whose [user] entry is
    present and non-empty, found by looking at both tiers, and a tier
    without such an entry is unchanged. *)
Theorem updateUser_merges_and_rewrites_holding_tier userData s ps :
  user s = JObj ps ->
  NoDup ps.*1 ->
  let s' := exec (updateUser userData) s in
  let text := JSON_stringify (user s') in
  user s' = merge (user s) userData /\
  (forall k, get_prop k (own_props userData) = None ->
             member (user s') k = member (user s) k) /\
  (forall k v, get_prop k (reverse (own_props userData)) = Some v ->
               member (user s') k = Some v) /\
  localStorage s' =
    (if truthy_item (localStorage s !! "user")
     then <["user" := text]> (localStorage s) else localStorage s) /\
  sessionStorage s' =
    (if truthy_item (sessionStorage s !! "user")
     then <["user" := text]> (sessionStorage s) else sessionStorage s) /\
  isAuthenticated s' = isAuthenticated s.
Proof.
  intros Hu Hnd s' text. subst text s'. unfold exec.
  rewrite updateUser_state. cbn [snd user isAuthenticated localStorage sessionStorage].
  split; [reflexivity |].
  assert (Hread : forall k, member (merge (user s) userData) k =
                            match get_prop k (reverse (own_props userData)) with
                            | Some v => Some v
                            | None => member (user s) k
                            end).
  { intros k. unfold member, merge. cbn [own_props].
    rewrite get_prop_spread_into. rewrite Hu. cbn [own_props].
    rewrite spread_object_copy by assumption. reflexivity. }
  split; [| split].
  - intros k Hk. rewrite Hread, (get_prop_reverse_None _ _ Hk). reflexivity.
  - intros k v Hk. rewrite Hread, Hk. reflexivity.
  - auto.
Qed.

(** C10 (amended).  When both tiers have a present, non-empty [user] entry,
    [updateUser] writes the text of the merged Session to both. *)
Theorem updateUser_writes_both_tiers userData s :
  truthy_item (localStorage s !! "user") = true ->
  truthy_item (sessionStorage s !! "user") = true ->
  let s' := exec (updateUser userData) s in
  let text := JSON_stringify (merge (user s) userData) in
  localStorage s' = <["user" := text]> (localStorage s) /\
  sessionStorage s' = <["user" := text]> (sessionStorage s) /\
  localStorage s' !! "user" = Some text /\
  sessionStorage s' !! "user" = Some text.
Proof.
  intros Hl Hs s' text. subst s' text. unfold exec.
  rewrite updateUser_state. cbn [snd localStorage sessionStorage].
  rewrite Hl, Hs. rewrite !lookup_insert_eq. auto.
Qed.

(** *** No operation throws to its caller *)

Lemma operations_complete_normally s :
  fst (initializeAuth s) = Normal tt /\
  (forall email password rememberMe t_date t_now,
     exists b, fst (login email password rememberMe t_date t_now s) = Normal b) /\
  fst (logout s) = Normal tt /\
  (forall userData, fst (updateUser userData s) = Normal tt) /\
  (forall now, exists b, fst (validateSession now s) = Normal b).
Proof.
  split; [rewrite initializeAuth_state; reflexivity |].
  split.
  { intros email password rememberMe t_date t_now.
    destruct (Regex.test emailRegex email) eqn:Hemail;
      destruct (le_lt_dec 6 (String.length password)) as [Hpw | Hpw];
      try (exists false; rewrite login_rejects by auto; reflexivity).
    exists true. rewrite login_accepts by assumption. reflexivity. }
  split; [reflexivity |].
  split; [intros userData; rewrite updateUser_state; reflexivity |].
  intros now. destruct (validateSession_outcome now s) as [-> | ->]; eauto.
Qed.

(** *** Where a login stores the Session *)

Lemma login_true_inv email password rememberMe t_date t_now s :
  fst (login email password rememberMe t_date t_now s) = Normal true ->
  Regex.test emailRegex email = true /\ (6 <= String.length password)%nat.
Proof.
  intros H.
  destruct (Regex.test emailRegex email) eqn:Hemail;
    destruct (le_lt_dec 6 (String.length password)) as [Hpw | Hpw]; auto;
    rewrite login_rejects in H by auto; discriminate.
Qed.

Lemma step_tier_invariant s op :
  tier_invariant s ->
  enabled s op ->
  tier_invariant (step s op).
Proof.
  intros [Hload Hheld] Hen.
  destruct op as [| email password rememberMe t_date t_now | | userData | now];
    unfold tier_invariant.
  - (* bootstrap *)
    cbn in Hen. specialize (Hload Hen).
    unfold_step. rewrite initializeAuth_state. cbn [snd].
    destruct (truthy_item (localStorage s !! "user")) eqn:Htruthy; cbn [andb].
    + destruct (is_literal "true" (localStorage s !! "isAuthenticated")).
      * destruct (JSON_parse _); cbn [isLoading isAuthenticated localStorage sessionStorage].
        -- split; [discriminate |]. intros _. left. apply truthy_item_has_user, Htruthy.
        -- split; [discriminate | congruence].
      * cbn [isLoading isAuthenticated localStorage sessionStorage].
        split; [discriminate | congruence].
    + cbn [isLoading isAuthenticated localStorage sessionStorage].
      split; [discriminate | congruence].
  - (* login *)
    cbn in Hen. unfold_step.
    destruct (Regex.test emailRegex email) eqn:Hemail;
      destruct (le_lt_dec 6 (String.length password)) as [Hpw | Hpw];
      try (rewrite login_rejects by auto; cbn [snd]; split; assumption).
    rewrite login_accepts by assumption.
    cbn [snd isLoading isAuthenticated localStorage sessionStorage].
    split; [congruence |]. intros _.
    destruct rememberMe; [left | right];
      apply has_user_flagged, has_user_written.
  - (* logout *)
    unfold_step. rewrite logout_state.
    cbn [snd isLoading isAuthenticated localStorage sessionStorage].
    split; [reflexivity | discriminate].
  - (* updateUser *)
    unfold_step. rewrite updateUser_state.
    cbn [snd isLoading isAuthenticated localStorage sessionStorage].
    split; [assumption |]. intros Hauth.
    destruct (Hheld Hauth) as [H | H]; [left | right].
    + destruct (truthy_item _); [apply has_user_written | assumption].
    + destruct (truthy_item _); [apply has_user_written | assumption].
  - (* validateSession *)
    unfold_step.
    destruct (validateSession_outcome now s) as [-> | ->]; cbn [snd].
    + split; assumption.
    + unfold exec. rewrite logout_state.
      cbn [snd isLoading isAuthenticated localStorage sessionStorage].
      split; [reflexivity | discriminate].
Qed.

Lemma reachable_tier_invariant s :
  reachable JSON_stringify JSON_parse Date_toISOString Date_valueOf s ->
  tier_invariant s.
Proof.
  induction 1 as [ls ss | s op Hreach IH Hen].
  - split; [reflexivity | discriminate].
  - apply step_tier_invariant; assumption.
Qed.

(** C1 (amended).  A successful [login] writes the text of the new Session
    and the flag under the [user] and [isAuthenticated] keys of the durable
    tier when [rememberMe] is true and of the ephemeral tier otherwise, and
    leaves the other tier as it was; so afterwards at least one tier holds a
    Session, and not both when the other tier held none before the call.
    In every reachable authenticated state at least one tier holds a
    Session. *)
Theorem login_writes_selected_tier_only :
  (forall email password rememberMe t_date t_now s,
     fst (login email password rememberMe t_date t_now s) = Normal true ->
     let s' := exec (login email password rememberMe t_date t_now) s in
     let text := JSON_stringify (new_session email rememberMe t_date t_now) in
     let written (tier : Storage) :=
       <["isAuthenticated" := "true"]> (<["user" := text]> tier) in
     user s' = new_session email rememberMe t_date t_now /\
     isAuthenticated s' = true /\
     (if rememberMe
      then localStorage s' = written (localStorage s) /\
           sessionStorage s' = sessionStorage s
      else sessionStorage s' = written (sessionStorage s) /\
           localStorage s' = localStorage s) /\
     (if rememberMe
      then localStorage s' !! "user" = Some text
      else sessionStorage s' !! "user" = Some text) /\
     (has_user (localStorage s') \/ has_user (sessionStorage s')) /\
     (~ has_user (if rememberMe then sessionStorage s else localStorage s) ->
      ~ (has_user (localStorage s') /\ has_user (sessionStorage s')))) /\
  (forall s,
     reachable JSON_stringify JSON_parse Date_toISOString Date_valueOf s ->
     isAuthenticated s = true ->
     has_user (localStorage s) \/ has_user (sessionStorage s)).
Proof.
  split.
  - intros email password rememberMe t_date t_now s Hok.
    apply login_true_inv in Hok as [Hemail Hpw].
    cbv zeta. unfold exec. rewrite login_accepts by assumption.
    cbn [snd user isAuthenticated localStorage sessionStorage].
    split; [reflexivity |]. split; [reflexivity |].
    destruct rememberMe.
    + split; [auto |]. split.
      { rewrite lookup_insert_ne by discriminate. apply lookup_insert_eq. }
      split; [left; apply has_user_flagged, has_user_written | tauto].
    + split; [auto |]. split.
      { rewrite lookup_insert_ne by discriminate. apply lookup_insert_eq. }
      split; [right; apply has_user_flagged, has_user_written | tauto].
  - intros s Hreach Hauth.
    apply reachable_tier_invariant in Hreach as [_ Hheld]. auto.
Qed.

(** *** The state invariant *)

Lemma step_state_invariant s op :
  state_invariant s ->
  permitted JSON_parse s op ->
  state_invariant (step s op).
Proof.
  unfold state_invariant. intros Hinv Hperm.
  destruct op as [| email password rememberMe t_date t_now | | userData | now].
  - cbn in Hperm. unfold_step. rewrite initializeAuth_state. cbn [snd].
    destruct (localStorage s !! "user") as [raw |] eqn:Hraw; cbn [truthy_item andb];
      [| exact Hinv].
    destruct (negb (String.eqb raw "") && is_literal "true" _); [| exact Hinv].
    change (default "null" (Some raw)) with raw.
    destruct (JSON_parse raw) as [parsed |] eqn:Hparse; [| exact Hinv].
    cbn [user isAuthenticated]. split; [| discriminate].
    intros ->. exfalso. exact (Hperm raw eq_refl Hparse).
  - unfold_step.
    destruct (Regex.test emailRegex email) eqn:Hemail;
      destruct (le_lt_dec 6 (String.length password)) as [Hpw | Hpw];
      try (rewrite login_rejects by auto; exact Hinv).
    rewrite login_accepts by assumption. cbn [snd user isAuthenticated].
    split; discriminate.
  - unfold_step. rewrite logout_state. cbn [snd user isAuthenticated].
    split; reflexivity.
  - cbn in Hperm. unfold_step. rewrite updateUser_state.
    cbn [snd user isAuthenticated]. rewrite Hperm. split; discriminate.
  - unfold_step.
    destruct (validateSession_outcome now s) as [-> | ->]; cbn [snd]; [exact Hinv |].
    unfold exec. rewrite logout_state. cbn [snd user isAuthenticated]. split; reflexivity.
Qed.

Lemma run_state_invariant ops : forall s,
  state_invariant s ->
  permitted_run JSON_stringify JSON_parse Date_toISOString Date_valueOf s ops ->
  forall n, state_invariant (run (take n ops) s).
Proof.
  induction ops as [| op ops IH]; intros s Hinv Hperm n.
  - rewrite take_nil. exact Hinv.
  - destruct n as [| n]; [exact Hinv |].
    destruct Hperm as [Hop Hrest]. cbn [take].
    apply (IH (step s op)); [apply step_state_invariant |]; assumption.
Qed.

(** C2 (amended).  Start from the mount state over any storage and run any
    sequence of operations in which [updateUser] is called only while
    authenticated and the bootstrap never reads a durable [user] text that
    deserializes to [null]: after each operation of the sequence, [user] is
    null if and only if [isAuthenticated] is false. *)
Theorem state_invariant_after_each_operation ls ss ops :
  permitted_run JSON_stringify JSON_parse Date_toISOString Date_valueOf
    (mount ls ss) ops ->
  forall n, state_invariant (run (take n ops) (mount ls ss)).
Proof.
  intros Hperm. apply run_state_invariant; [| exact Hperm].
  split; reflexivity.
Qed.

End Properties.

(** ** The properties on the reference platform *)

Module Instances.
Import Scenario.

Lemma login_invalid_returns_false_unchanged_witness :
  (~ email_shape "user.example.com" \/ (String.length "secret1" < 6)%nat) /\
  login "user.example.com" "secret1" true t_login t_login first_visit =
  (Normal false, first_visit).
Proof.
  assert (H : ~ email_shape "user.example.com" \/ (String.length "secret1" < 6)%nat).
  { left. apply emailRegex_not_shape. vm_compute. reflexivity. }
  split; [exact H |].
  exact (login_invalid_returns_false_unchanged
           Reference.JSON_stringify Reference.Date_toISOString
           "user.example.com" "secret1" true t_login t_login first_visit H).
Defined.

Lemma login_true_iff_valid_witness :
  (String.length "abc" < 6)%nat /\
  fst (login "a@b.co" "abc" true t_login t_login first_visit) = Normal false.
Proof.
  assert (H : (String.length "abc" < 6)%nat) by (simpl; lia).
  split; [exact H |].
  exact (proj2 (proj2 (login_true_iff_valid
                         Reference.JSON_stringify Reference.Date_toISOString
                         "a@b.co" "abc" true t_login t_login first_visit)) H).
Defined.

Lemma login_then_logout_purges_witness :
  fst (login "a@b.co" "abcdef" true t_login t_login first_visit) = Normal true /\
  let s' := exec logout (exec (login "a@b.co" "abcdef" true t_login t_login) first_visit) in
  localStorage s' !! "user" = None /\
  localStorage s' !! "isAuthenticated" = None /\
  sessionStorage s' !! "user" = None /\
  sessionStorage s' !! "isAuthenticated" = None /\
  user s' = JNull /\
  isAuthenticated s' = false.
Proof.
  assert (H : fst (login "a@b.co" "abcdef" true t_login t_login first_visit) = Normal true)
    by (vm_compute; reflexivity).
  split; [exact H |].
  exact (login_then_logout_purges
           Reference.JSON_stringify Reference.Date_toISOString
           "a@b.co" "abcdef" true t_login t_login first_visit H).
Defined.

Lemma remembered_session_since :
  session_since Reference.Date_valueOf remembered t_login.
Proof.
  split; [vm_compute; reflexivity |].
  exists (JStr "2023-11-14T22:13:20.123Z").
  repeat split; vm_compute; reflexivity.
Defined.

Lemma validateSession_expiry_witness :
  session_since Reference.Date_valueOf remembered t_login /\
  24 * 60 * 60 * 1000 < (t_login + 25 * hour) - t_login /\
  (t_login + 1 * hour) - t_login <= 24 * 60 * 60 * 1000 /\
  user first_visit = JNull /\
  validateSession (t_login + 25 * hour) remembered =
    (Normal false, exec logout remembered) /\
  isAuthenticated (exec (validateSession (t_login + 25 * hour)) remembered) = false /\
  validateSession (t_login + 1 * hour) remembered = (Normal true, remembered) /\
  validateSession t_login first_visit = (Normal true, first_visit).
Proof.
  assert (Hlate : 24 * 60 * 60 * 1000 < (t_login + 25 * hour) - t_login)
    by (vm_compute; reflexivity).
  assert (Hfresh : (t_login + 1 * hour) - t_login <= 24 * 60 * 60 * 1000)
    by (vm_compute; discriminate).
  assert (Hnone : user first_visit = JNull) by reflexivity.
  split; [exact remembered_session_since |].
  split; [exact Hlate |]. split; [exact Hfresh |]. split; [exact Hnone |].
  pose proof (validateSession_expiry Reference.Date_valueOf
                (t_login + 25 * hour) remembered) as [Hexp _].
  pose proof (validateSession_expiry Reference.Date_valueOf
                (t_login + 1 * hour) remembered) as [Hkeep _].
  pose proof (validateSession_expiry Reference.Date_valueOf
                t_login first_visit) as [_ Hanon].
  destruct (Hexp t_login remembered_session_since) as [Hexp' _].
  destruct (Hkeep t_login remembered_session_since) as [_ Hkeep'].
  destruct (Hexp' Hlate) as (H1 & _ & H2).
  split; [exact H1 |]. split; [exact H2 |].
  split; [exact (Hkeep' Hfresh) | exact (Hanon Hnone)].
Defined.

Lemma initializeAuth_malformed_user_purged_witness :
  localStorage (mount corrupted ∅) !! "user" = Some "{bad" /\
  "{bad" <> "" /\
  Reference.JSON_parse "{bad" = None /\
  localStorage (mount corrupted ∅) !! "isAuthenticated" = Some "true" /\
  isAuthenticated (mount corrupted ∅) = false /\
  let s' := exec initializeAuth (mount corrupted ∅) in
  fst (initializeAuth (mount corrupted ∅)) = Normal tt /\
  localStorage s' !! "user" = None /\
  localStorage s' !! "isAuthenticated" = None /\
  isAuthenticated s' = false /\
  user s' = user (mount corrupted ∅) /\
  isLoading s' = false /\
  sessionStorage s' = sessionStorage (mount corrupted ∅).
Proof.
  assert (H1 : localStorage (mount corrupted ∅) !! "user" = Some "{bad")
    by (vm_compute; reflexivity).
  assert (H2 : "{bad" <> "") by discriminate.
  assert (H3 : Reference.JSON_parse "{bad" = None) by (vm_compute; reflexivity).
  assert (H4 : localStorage (mount corrupted ∅) !! "isAuthenticated" = Some "true")
    by (vm_compute; reflexivity).
  assert (H5 : isAuthenticated (mount corrupted ∅) = false) by reflexivity.
  split; [exact H1 |]. split; [exact H2 |]. split; [exact H3 |].
  split; [exact H4 |]. split; [exact H5 |].
  exact (initializeAuth_malformed_user_purged Reference.JSON_parse
           (mount corrupted ∅) "{bad" H1 H2 H3 H4 H5).
Defined.

(** C6, as stated, fails on the empty text: [JSON.parse] rejects it, the
    flag is the literal [true], and the bootstrap finishes with both durable
    keys still in place, because the empty text is falsy and the parse is
    never attempted. *)
Lemma initializeAuth_empty_user_text_kept :
  localStorage (mount emptied ∅) !! "user" = Some "" /\
  Reference.JSON_parse "" = None /\
  localStorage (mount emptied ∅) !! "isAuthenticated" = Some "true" /\
  let s' := exec initializeAuth (mount emptied ∅) in
  localStorage s' !! "user" = Some "" /\
  localStorage s' !! "isAuthenticated" = Some "true" /\
  ~ (localStorage s' !! "user" = None /\
     localStorage s' !! "isAuthenticated" = None).
Proof.
  repeat split; try (vm_compute; reflexivity).
  intros [H _]. vm_compute in H. discriminate.
Qed.

Lemma remembered_fields :
  user remembered =
  JObj [("email", JStr "a@b.co"); ("rememberMe", JBool true);
        ("loginTime", JStr "2023-11-14T22:13:20.123Z");
        ("id", JStr "1700000000123")].
Proof. vm_compute. reflexivity. Defined.

Lemma updateUser_merges_and_rewrites_holding_tier_witness :
  let ps := [("email", JStr "a@b.co"); ("rememberMe", JBool true);
             ("loginTime", JStr "2023-11-14T22:13:20.123Z");
             ("id", JStr "1700000000123")] in
  user remembered = JObj ps /\
  NoDup ps.*1 /\
  let s' := exec (updateUser nickname) remembered in
  let text := Reference.JSON_stringify (user s') in
  user s' = merge (user remembered) nickname /\
  (forall k, get_prop k (own_props nickname) = None ->
             member (user s') k = member (user remembered) k) /\
  (forall k v, get_prop k (reverse (own_props nickname)) = Some v ->
               member (user s') k = Some v) /\
  localStorage s' =
    (if truthy_item (localStorage remembered !! "user")
     then <["user" := text]> (localStorage remembered) else localStorage remembered) /\
  sessionStorage s' =
    (if truthy_item (sessionStorage remembered !! "user")
     then <["user" := text]> (sessionStorage remembered) else sessionStorage remembered) /\
  isAuthenticated s' = isAuthenticated remembered.
Proof.
  intros ps.
  assert (Hnd : NoDup ps.*1) by (refine (bool_decide_unpack _ _); vm_compute; exact I).
  split; [exact remembered_fields |]. split; [exact Hnd |].
  exact (updateUser_merges_and_rewrites_holding_tier Reference.JSON_stringify
           nickname remembered ps remembered_fields Hnd).
Defined.

Lemma updateUser_writes_both_tiers_witness :
  truthy_item (localStorage remembered_after_reload !! "user") = true /\
  truthy_item (sessionStorage remembered_after_reload !! "user") = true /\
  let s' := exec (updateUser nickname) remembered_after_reload in
  let text := Reference.JSON_stringify (merge (user remembered_after_reload) nickname) in
  localStorage s' = <["user" := text]> (localStorage remembered_after_reload) /\
  sessionStorage s' = <["user" := text]> (sessionStorage remembered_after_reload) /\
  localStorage s' !! "user" = Some text /\
  sessionStorage s' !! "user" = Some text.
Proof.
  assert (Hl : truthy_item (localStorage remembered_after_reload !! "user") = true)
    by (vm_compute; reflexivity).
  assert (Hs : truthy_item (sessionStorage remembered_after_reload !! "user") = true)
    by (vm_compute; reflexivity).
  split; [exact Hl |]. split; [exact Hs |].
  exact (updateUser_writes_both_tiers Reference.JSON_stringify
           nickname remembered_after_reload Hl Hs).
Defined.

(** C10, as stated, fails when a tier holds the [user] key with the empty
    text: both tiers hold the key, yet [updateUser] writes the merged
    Session to the ephemeral tier only. *)
Lemma updateUser_skips_empty_user_entry :
  has_user (localStorage blank_durable) /\
  has_user (sessionStorage blank_durable) /\
  let s' := exec (updateUser nickname) blank_durable in
  let text := Reference.JSON_stringify (merge (user blank_durable) nickname) in
  sessionStorage s' !! "user" = Some text /\
  localStorage s' !! "user" = Some "" /\
  localStorage s' !! "user" <> Some text.
Proof.
  split; [unfold has_user; vm_compute; eauto |].
  split; [unfold has_user; vm_compute; eauto |].
  cbv zeta. split; [vm_compute; reflexivity |].
  split; [vm_compute; reflexivity |].
  vm_compute. discriminate.
Qed.

Lemma remembered_after_reload_reachable :
  reachable Reference.JSON_stringify Reference.JSON_parse
    Reference.Date_toISOString Reference.Date_valueOf remembered_after_reload.
Proof.
  unfold remembered_after_reload. unfold_run.
  apply reachable_step; [apply reachable_step; [apply reachable_mount |] |].
  - reflexivity.
  - vm_compute. reflexivity.
Defined.

(** C1, as stated, fails: a Session written for this tab only stays in the
    ephemeral tier over a reload of the page, the bootstrap does not look at
    it, and a remembered login then leaves a Session in both tiers; the same
    happens when a remembered login follows a tab-only login in one page
    life.  [login] never removes anything from the other tier. *)
Lemma login_leaves_session_in_both_tiers :
  (reachable Reference.JSON_stringify Reference.JSON_parse
     Reference.Date_toISOString Reference.Date_valueOf remembered_after_reload /\
   isAuthenticated remembered_after_reload = true /\
   has_user (localStorage remembered_after_reload) /\
   has_user (sessionStorage remembered_after_reload)) /\
  (isAuthenticated logged_in_twice = true /\
   has_user (localStorage logged_in_twice) /\
   has_user (sessionStorage logged_in_twice)).
Proof.
  split; [split; [exact remembered_after_reload_reachable |] |];
    repeat split; try (vm_compute; reflexivity);
    unfold has_user; vm_compute; eauto.
Qed.

Lemma remembered_reachable :
  reachable Reference.JSON_stringify Reference.JSON_parse
    Reference.Date_toISOString Reference.Date_valueOf remembered.
Proof.
  unfold remembered. unfold_run.
  apply reachable_step; [apply reachable_step; [apply reachable_mount |] |].
  - reflexivity.
  - vm_compute. reflexivity.
Defined.

Lemma login_writes_selected_tier_only_witness :
  fst (login "a@b.co" "abcdef" true t_login t_login booted) = Normal true /\
  reachable Reference.JSON_stringify Reference.JSON_parse
    Reference.Date_toISOString Reference.Date_valueOf remembered /\
  isAuthenticated remembered = true /\
  localStorage remembered !! "user" =
    Some (Reference.JSON_stringify
            (new_session Reference.Date_toISOString "a@b.co" true t_login t_login)) /\
  sessionStorage remembered = sessionStorage booted /\
  (has_user (localStorage remembered) \/ has_user (sessionStorage remembered)).
Proof.
  assert (Hok : fst (login "a@b.co" "abcdef" true t_login t_login booted) = Normal true)
    by (vm_compute; reflexivity).
  assert (Hauth : isAuthenticated remembered = true) by (vm_compute; reflexivity).
  destruct (login_writes_selected_tier_only
              Reference.JSON_stringify Reference.JSON_parse
              Reference.Date_toISOString Reference.Date_valueOf) as [Hlogin Hreach].
  destruct (Hlogin "a@b.co" "abcdef" true t_login t_login booted Hok)
    as (_ & _ & [_ Hother] & Hstored & _ & _).
  split; [exact Hok |]. split; [exact remembered_reachable |].
  split; [exact Hauth |]. split; [exact Hstored |]. split; [exact Hother |].
  exact (Hreach remembered remembered_reachable Hauth).
Defined.

Lemma page_life_permitted :
  permitted_run Reference.JSON_stringify Reference.JSON_parse
    Reference.Date_toISOString Reference.Date_valueOf
    (mount (localStorage remembered) (sessionStorage remembered)) page_life.
Proof.
  unfold page_life. cbn [permitted_run]. split.
  - intros raw Hraw. vm_compute in Hraw. injection Hraw as <-.
    vm_compute. discriminate.
  - split; [vm_compute; reflexivity |]. repeat split.
Defined.

Lemma state_invariant_after_each_operation_witness :
  permitted_run Reference.JSON_stringify Reference.JSON_parse
    Reference.Date_toISOString Reference.Date_valueOf
    (mount (localStorage remembered) (sessionStorage remembered)) page_life /\
  forall n,
    state_invariant
      (run (take n page_life)
           (mount (localStorage remembered) (sessionStorage remembered))).
Proof.
  split; [exact page_life_permitted |].
  exact (state_invariant_after_each_operation
           Reference.JSON_stringify Reference.JSON_parse
           Reference.Date_toISOString Reference.Date_valueOf
           (localStorage remembered) (sessionStorage remembered)
           page_life page_life_permitted).
Defined.

(** C2, as stated, fails: [updateUser] called before any login stores the
    merged object in [user] and leaves [isAuthenticated] false.  It also
    fails at a bootstrap over a durable [user] entry that is the text of
    [null]: the bootstrap sets [isAuthenticated] and [user] stays null. *)
Lemma state_invariant_fails_without_guards :
  (let s := run [Bootstrap; UpdateUser nickname] first_visit in
   user s = JObj [("nickname", JStr "x")] /\
   isAuthenticated s = false /\
   ~ state_invariant s) /\
  (let s := run [Bootstrap] (mount null_seeded ∅) in
   user s = JNull /\
   isAuthenticated s = true /\
   ~ state_invariant s).
Proof.
  cbv zeta. split.
  - split; [vm_compute; reflexivity |].
    split; [vm_compute; reflexivity |].
    intros [_ Hnull].
    assert (E : user (run [Bootstrap; UpdateUser nickname] first_visit) = JNull)
      by (apply Hnull; vm_compute; reflexivity).
    vm_compute in E. discriminate.
  - split; [vm_compute; reflexivity |].
    split; [vm_compute; reflexivity |].
    intros [Hauth _].
    assert (E : isAuthenticated (run [Bootstrap] (mount null_seeded ∅)) = false)
      by (apply Hauth; vm_compute; reflexivity).
    vm_compute in E. discriminate.
Qed.

(** *** Further runs *)

(** A remembered Session is recovered by the bootstrap of the next page
    life. *)
Example bootstrap_recovers_remembered_session :
  let s := exec initializeAuth (reload remembered) in
  user s = user remembered /\ isAuthenticated s = true /\ isLoading s = false.
Proof. vm_compute. auto. Qed.

(** A tab-only Session is not: the bootstrap reads the durable tier only. *)
Example bootstrap_ignores_tab_only_session :
  let s := exec initializeAuth (reload this_tab_only) in
  user s = JNull /\ isAuthenticated s = false /\ isLoading s = false /\
  has_user (sessionStorage s).
Proof.
  cbv zeta. repeat split; try (vm_compute; reflexivity).
  unfold has_user. vm_compute. eauto.
Qed.

Example emailRegex_samples :
  map (Regex.test emailRegex)
      ["a@b.co"; "a@b"; "a b@c.d"; "a@b@c.d"; "a@b.c.d"; "a@.d"; "@b.co"; ""] =
  [true; false; false; false; true; false; false; false].
Proof. vm_compute. reflexivity. Qed.

Example toISOString_samples :
  map Reference.Date_toISOString [0; t_login; 951782400000; -1] =
  ["1970-01-01T00:00:00.000Z"; "2023-11-14T22:13:20.123Z";
   "2000-02-29T00:00:00.000Z"; "1969-12-31T23:59:59.999Z"].
Proof. vm_compute. reflexivity. Qed.

Example login_time_reads_back :
  Reference.Date_valueOf (JStr (Reference.Date_toISOString t_login)) = Some t_login.
Proof. vm_compute. reflexivity. Qed.

End Instances.

(** * Further properties of the provider *)

Section ProviderFacts.

Set Default Proof Using "Type".

Context (JSON_stringify : JSValue -> string)
        (JSON_parse : string -> option JSValue)
        (Date_toISOString : Z -> string)
        (Date_valueOf : JSValue -> option Z).

Local Abbreviation login := (login JSON_stringify Date_toISOString).
Local Abbreviation updateUser := (updateUser JSON_stringify).
Local Abbreviation initializeAuth := (initializeAuth JSON_parse).
Local Abbreviation validateSession := (validateSession Date_valueOf).
Local Abbreviation new_session := (new_session Date_toISOString).
Local Abbreviation step := (step JSON_stringify JSON_parse Date_toISOString Date_valueOf).
Local Abbreviation run := (run JSON_stringify JSON_parse Date_toISOString Date_valueOf).

(** *** The bootstrap *)

Lemma truthy_item_Some (item : option string) :
  truthy_item item = true <-> exists raw, item = Some raw /\ raw <> "".
Proof.
  destruct item as [raw |]; simpl.
  - rewrite negb_true_iff, String.eqb_neq. split.
    + intros H. exists raw. auto.
    + intros (raw' & [= <-] & H). exact H.
  - split; [discriminate | intros (raw & H & _); discriminate].
Qed.

Lemma is_literal_Some (lit : string) (item : option string) :
  is_literal lit item = true <-> item = Some lit.
Proof.
  destruct item as [s |]; simpl.
  - rewrite String.eqb_eq. split; [intros -> | intros [= ->]]; reflexivity.
  - split; discriminate.
Qed.

(** X1.  The bootstrap of a page life authenticates exactly when the
    durable [user] entry is a non-empty text that [JSON.parse] accepts and
    the durable [isAuthenticated] entry is the literal [true]; [user] is
    then the parsed value.  In every other case the state stays anonymous
    with [user] null.  [isLoading] is false afterwards in all cases. *)
Theorem initializeAuth_authenticates_iff ls ss :
  let s' := exec initializeAuth (mount ls ss) in
  (isAuthenticated s' = true <->
   exists raw parsed,
     ls !! "user" = Some raw /\ raw <> "" /\
     ls !! "isAuthenticated" = Some "true" /\
     JSON_parse raw = Some parsed) /\
  (forall raw parsed,
     ls !! "user" = Some raw -> raw <> "" ->
     ls !! "isAuthenticated" = Some "true" ->
     JSON_parse raw = Some parsed ->
     user s' = parsed) /\
  (isAuthenticated s' = false -> user s' = JNull) /\
  isLoading s' = false.
Proof.
  cbv zeta. unfold exec. rewrite initializeAuth_state.
  cbn [snd mount user isAuthenticated isLoading localStorage sessionStorage].
  destruct (truthy_item (ls !! "user")) eqn:Htruthy; cbn [andb].
  - apply truthy_item_Some in Htruthy as (raw & Hraw & Hne).
    destruct (is_literal "true" (ls !! "isAuthenticated")) eqn:Hflag.
    + apply is_literal_Some in Hflag. rewrite Hraw.
      change (default "null" (Some raw)) with raw.
      destruct (JSON_parse raw) as [parsed |] eqn:Hparse;
        cbn [user isAuthenticated isLoading].
      * split; [split; [intros _; exists raw, parsed; auto | reflexivity] |].
        split; [| split; [discriminate | reflexivity]].
        intros raw' parsed' [= <-] _ _ Hp. congruence.
      * split; [split; [discriminate |] |].
        { intros (raw' & parsed' & [= <-] & _ & _ & Hp). congruence. }
        split; [| split; reflexivity].
        intros raw' parsed' [= <-] _ _ Hp. congruence.
    + cbn [user isAuthenticated isLoading].
      split; [split; [discriminate |] |].
      { intros (raw' & parsed' & _ & _ & Hf & _).
        apply is_literal_Some in Hf. congruence. }
      split; [| split; reflexivity].
      intros raw' parsed' _ _ Hf _. apply is_literal_Some in Hf. congruence.
  - cbn [user isAuthenticated isLoading].
    assert (Hnot : forall raw, ls !! "user" = Some raw -> raw <> "" -> False).
    { intros raw Hraw Hne.
      assert (truthy_item (ls !! "user") = true) by (apply truthy_item_Some; eauto).
      congruence. }
    split; [split; [discriminate |] |].
    { intros (raw & parsed & Hraw & Hne & _). destruct (Hnot raw Hraw Hne). }
    split; [| split; reflexivity].
    intros raw parsed Hraw Hne _ _. destruct (Hnot raw Hraw Hne).
Qed.

(** X2.  The bootstrap never adds or rewrites a storage entry: the
    ephemeral tier is untouched, and every entry of the durable tier that is
    there afterwards was there before with the same text.  The durable tier
    changes only by losing the [user] and [isAuthenticated] entries, and only
    when the [user] text was non-empty, flagged [true] and rejected by
    [JSON.parse]. *)
Theorem initializeAuth_writes_nothing s :
  let s' := exec initializeAuth s in
  sessionStorage s' = sessionStorage s /\
  (forall k text, localStorage s' !! k = Some text ->
                  localStorage s !! k = Some text) /\
  (localStorage s' = localStorage s \/
   (localStorage s' = delete "isAuthenticated" (delete "user" (localStorage s)) /\
    exists raw, localStorage s !! "user" = Some raw /\ raw <> "" /\
                localStorage s !! "isAuthenticated" = Some "true" /\
                JSON_parse raw = None)).
Proof.
  cbv zeta. unfold exec. rewrite initializeAuth_state. cbn [snd].
  destruct (truthy_item (localStorage s !! "user")) eqn:Htruthy; cbn [andb];
    [| cbn [localStorage sessionStorage]; auto].
  destruct (is_literal "true" (localStorage s !! "isAuthenticated")) eqn:Hflag;
    [| cbn [localStorage sessionStorage]; auto].
  apply truthy_item_Some in Htruthy as (raw & Hraw & Hne).
  apply is_literal_Some in Hflag. rewrite Hraw.
  change (default "null" (Some raw)) with raw.
  destruct (JSON_parse raw) eqn:Hparse; cbn [localStorage sessionStorage]; [auto |].
  split; [reflexivity |]. split.
  - intros k text Hk.
    apply lookup_delete_Some in Hk as [_ Hk].
    apply lookup_delete_Some in Hk as [_ Hk]. exact Hk.
  - right. split; [reflexivity |]. exists raw. auto.
Qed.

(** X3.  Remember-me round trip.  On a platform where [JSON.parse] reads
    back the text [JSON.stringify] writes for the new Session (a non-empty
    text), a successful remembered login is recovered by the bootstrap of
    the next page life, whatever that page life finds in the ephemeral
    tier: [user] is the Session of the login and [isAuthenticated] is
    true. *)
Theorem remembered_login_survives_reload email password t_date t_now s ss' :
  let session := new_session email true t_date t_now in
  JSON_parse (JSON_stringify session) = Some session ->
  JSON_stringify session <> "" ->
  fst (login email password true t_date t_now s) = Normal true ->
  let s1 := exec (login email password true t_date t_now) s in
  let s2 := exec initializeAuth (mount (localStorage s1) ss') in
  user s2 = session /\ isAuthenticated s2 = true /\ isLoading s2 = false.
Proof.
  intros session Hround Hne Hok s1 s2.
  apply login_true_inv in Hok as [Hemail Hpw].
  assert (Hls : localStorage s1 =
                <["isAuthenticated" := "true"]>
                  (<["user" := JSON_stringify session]> (localStorage s))).
  { subst s1. unfold exec. rewrite login_accepts by assumption. reflexivity. }
  subst s2. unfold exec. rewrite initializeAuth_state.
  cbn [snd mount localStorage]. rewrite Hls.
  rewrite lookup_insert_eq, lookup_insert_ne, lookup_insert_eq by discriminate.
  cbn [truthy_item is_literal].
  apply String.eqb_neq in Hne. rewrite Hne, String.eqb_refl. cbn [negb andb].
  change (default "null" (Some (JSON_stringify session))) with (JSON_stringify session).
  rewrite Hround. auto.
Qed.

(** X4.  A login without remember-me does not survive the page life: when
    the durable tier had no [user] entry, the bootstrap of the next page
    life leaves the visitor anonymous, although the ephemeral tier still
    holds the text of the Session. *)
Theorem tab_only_login_lost_on_reload email password t_date t_now s :
  localStorage s !! "user" = None ->
  fst (login email password false t_date t_now s) = Normal true ->
  let s1 := exec (login email password false t_date t_now) s in
  let s2 := exec initializeAuth (mount (localStorage s1) (sessionStorage s1)) in
  isAuthenticated s2 = false /\ user s2 = JNull /\
  sessionStorage s2 !! "user" =
    Some (JSON_stringify (new_session email false t_date t_now)).
Proof.
  intros Hnone Hok s1 s2.
  apply login_true_inv in Hok as [Hemail Hpw].
  assert (Hs1 : localStorage s1 = localStorage s /\
                sessionStorage s1 !! "user" =
                  Some (JSON_stringify (new_session email false t_date t_now))).
  { subst s1. unfold exec. rewrite login_accepts by assumption.
    cbn [snd localStorage sessionStorage]. split; [reflexivity |].
    rewrite lookup_insert_ne by discriminate. apply lookup_insert_eq. }
  destruct Hs1 as [Hls Hss].
  subst s2. unfold exec. rewrite initializeAuth_state.
  cbn [snd mount localStorage sessionStorage user isAuthenticated].
  rewrite Hls, Hnone. cbn [truthy_item andb user isAuthenticated sessionStorage].
  auto.
Qed.

(** X5.  A logout is final across page lives: after [logout], the
    bootstrap of the next page life finds no Session and leaves the visitor
    anonymous, whatever the ephemeral tier of that page life holds. *)
Theorem logout_then_reload_anonymous s ss' :
  let s' := exec initializeAuth (mount (localStorage (exec logout s)) ss') in
  isAuthenticated s' = false /\ user s' = JNull /\
  localStorage s' !! "user" = None /\
  localStorage s' !! "isAuthenticated" = None.
Proof.
  cbv zeta. unfold exec. rewrite logout_state, initializeAuth_state.
  cbn [snd mount localStorage sessionStorage user isAuthenticated].
  pose proof (purged_lookup (localStorage s)) as [Hu Hf].
  rewrite Hu. cbn [truthy_item andb localStorage user isAuthenticated]. auto.
Qed.

(** *** Expiry of a Session *)

Lemma new_session_since email password rememberMe t_date t_now s :
  Date_valueOf (JStr (Date_toISOString t_date)) = Some t_date ->
  Date_toISOString t_date <> "" ->
  fst (login email password rememberMe t_date t_now s) = Normal true ->
  session_since Date_valueOf
    (exec (login email password rememberMe t_date t_now) s) t_date.
Proof.
  intros Hdate Hne Hok. apply login_true_inv in Hok as [Hemail Hpw].
  unfold exec. rewrite login_accepts by assumption.
  cbn [snd]. unfold session_since. cbn [user]. split; [reflexivity |].
  exists (JStr (Date_toISOString t_date)).
  split; [reflexivity |]. split; [| exact Hdate].
  cbn [truthy]. apply String.eqb_neq in Hne. rewrite Hne. reflexivity.
Qed.

(** X6.  On a platform where the date text written at login reads back as
    the same instant, the Session of a successful login passes
    [validateSession] at every instant up to 24 hours after the login
    (that instant included) and is logged out by the first check after
    that. *)
Theorem login_session_expires_after_24h
    email password rememberMe t_date t_now s now :
  Date_valueOf (JStr (Date_toISOString t_date)) = Some t_date ->
  Date_toISOString t_date <> "" ->
  fst (login email password rememberMe t_date t_now s) = Normal true ->
  let s1 := exec (login email password rememberMe t_date t_now) s in
  validateSession now s1 =
  if 24 * 60 * 60 * 1000 <? now - t_date
  then (Normal false, exec logout s1)
  else (Normal true, s1).
Proof.
  intros Hdate Hne Hok s1.
  pose proof (new_session_since _ _ _ _ _ _ Hdate Hne Hok) as Hsince.
  fold s1 in Hsince.
  destruct (24 * 60 * 60 * 1000 <? now - t_date) eqn:Hcmp.
  - apply Z.ltb_lt in Hcmp.
    apply (validateSession_expired Date_valueOf now s1 t_date Hsince Hcmp).
  - apply Z.ltb_ge in Hcmp.
    apply (validateSession_fresh Date_valueOf now s1 t_date Hsince Hcmp).
Qed.

Lemma get_prop_reverse_NoDup k ps :
  NoDup ps.*1 -> get_prop k (reverse ps) = get_prop k ps.
Proof.
  induction ps as [| [k0 v0] ps IH]; intros Hnd; [reflexivity |].
  rewrite fmap_cons in Hnd. cbn [fst] in Hnd.
  apply NoDup_cons in Hnd as [Hfresh Hnd].
  rewrite reverse_cons, get_prop_app, IH by assumption. cbn [get_prop].
  destruct (String.eqb k0 k) eqn:E.
  - apply String.eqb_eq in E. subst k0.
    apply get_prop_None in Hfresh. rewrite Hfresh. reflexivity.
  - destruct (get_prop k ps); reflexivity.
Qed.

Lemma member_merge k user0 userData :
  member (merge user0 userData) k =
  match get_prop k (reverse (own_props userData)) with
  | Some v => Some v
  | None => get_prop k (reverse (own_props user0))
  end.
Proof.
  unfold member, merge. cbn [own_props].
  rewrite !get_prop_spread_into. cbn [get_prop].
  destruct (get_prop k (reverse (own_props userData))); [reflexivity |].
  destruct (get_prop k (reverse (own_props user0))); reflexivity.
Qed.

(** X7.  [updateUser] can move or switch off the expiry of a Session.
    After [updateUser(userData)] where [userData] is an object (each key
    once) with a [loginTime]: when that value is falsy or not a valid date,
    [validateSession] passes at every instant; when it is the instant [t],
    [validateSession] passes up to 24 hours after [t] and logs out after
    that, whatever the login time was before. *)
Theorem updateUser_replaces_login_time userData s v now :
  NoDup (own_props userData).*1 ->
  member userData "loginTime" = Some v ->
  let s1 := exec (updateUser userData) s in
  (truthy v = false \/ Date_valueOf v = None ->
   validateSession now s1 = (Normal true, s1)) /\
  (forall t, truthy v = true -> Date_valueOf v = Some t ->
     validateSession now s1 =
     if 24 * 60 * 60 * 1000 <? now - t
     then (Normal false, exec logout s1)
     else (Normal true, s1)).
Proof.
  intros Hnd Hv s1.
  assert (Huser : user s1 = merge (user s) userData).
  { subst s1. unfold exec. rewrite updateUser_state. reflexivity. }
  assert (Hmem : member (user s1) "loginTime" = Some v).
  { rewrite Huser, member_merge, get_prop_reverse_NoDup by assumption.
    unfold member in Hv. rewrite Hv. reflexivity. }
  assert (Htruthy : truthy (user s1) = true) by (rewrite Huser; reflexivity).
  split.
  - intros Hoff. eval_M. rewrite Htruthy, Hmem. cbn [truthy_opt andb].
    destruct (truthy v) eqn:Htv; [| reflexivity].
    destruct Hoff as [? | Hinvalid]; [discriminate |].
    cbn [mbind option_bind]. rewrite Hinvalid. reflexivity.
  - intros t Htv Ht.
    assert (Hsince : session_since Date_valueOf s1 t).
    { split; [exact Htruthy |]. exists v. auto. }
    destruct (24 * 60 * 60 * 1000 <? now - t) eqn:Hcmp.
    + apply Z.ltb_lt in Hcmp.
      apply (validateSession_expired Date_valueOf now s1 t Hsince Hcmp).
    + apply Z.ltb_ge in Hcmp.
      apply (validateSession_fresh Date_valueOf now s1 t Hsince Hcmp).
Qed.

(** X8.  The expiry check logs out once: when [validateSession] has
    returned [false], every later call returns [true] and changes
    nothing. *)
Theorem validateSession_after_expiry_passes now s now' :
  fst (validateSession now s) = Normal false ->
  let s1 := exec (validateSession now) s in
  validateSession now' s1 = (Normal true, s1).
Proof.
  intros Hfalse s1. subst s1. unfold exec.
  destruct (validateSession_outcome Date_valueOf now s) as [H | H];
    rewrite H in Hfalse |- *; [discriminate |].
  cbn [snd]. apply validateSession_no_session. reflexivity.
Qed.

(** *** What the operations leave alone *)

Lemma step_other_keys s op k :
  k <> "user" -> k <> "isAuthenticated" ->
  localStorage (step s op) !! k = localStorage s !! k /\
  sessionStorage (step s op) !! k = sessionStorage s !! k.
Proof.
  intros Hu Hf.
  destruct op as [| email password rememberMe t_date t_now | | userData | now];
    unfold_step.
  - rewrite initializeAuth_state. cbn [snd].
    destruct (truthy_item _ && is_literal _ _);
      [destruct (JSON_parse _) |]; cbn [localStorage sessionStorage]; auto.
    rewrite !lookup_delete_ne by congruence. auto.
  - destruct (Regex.test emailRegex email) eqn:Hemail;
      destruct (le_lt_dec 6 (String.length password)) as [Hpw | Hpw];
      try (rewrite login_rejects by auto; auto).
    rewrite login_accepts by assumption. cbn [snd localStorage sessionStorage].
    destruct rememberMe; rewrite !lookup_insert_ne by congruence; auto.
  - rewrite logout_state. cbn [snd localStorage sessionStorage].
    rewrite !lookup_delete_ne by congruence. auto.
  - rewrite updateUser_state. cbn [snd localStorage sessionStorage].
    split; destruct (truthy_item _); rewrite ?lookup_insert_ne by congruence; auto.
  - destruct (validateSession_outcome Date_valueOf now s) as [-> | ->]; cbn [snd]; [auto |].
    unfold exec. rewrite logout_state. cbn [snd localStorage sessionStorage].
    rewrite !lookup_delete_ne by congruence. auto.
Qed.

(** X9.  The provider owns two keys only: whatever operations run, in
    whatever order, every entry of either tier under a key other than
    [user] and [isAuthenticated] is as it was. *)
Theorem operations_keep_other_keys ops s k :
  k <> "user" -> k <> "isAuthenticated" ->
  localStorage (run ops s) !! k = localStorage s !! k /\
  sessionStorage (run ops s) !! k = sessionStorage s !! k.
Proof.
  intros Hu Hf. revert s. induction ops as [| op ops IH]; intros s.
  - auto.
  - unfold_run. fold (run ops (step s op)).
    destruct (IH (step s op)) as [-> ->].
    apply step_other_keys; assumption.
Qed.

Lemma step_isLoading s op :
  isLoading (step s op) =
  match op with
  | Bootstrap => false
  | _ => isLoading s
  end.
Proof.
  destruct op as [| email password rememberMe t_date t_now | | userData | now];
    unfold_step.
  - rewrite initializeAuth_state. cbn [snd].
    destruct (truthy_item _ && is_literal _ _);
      [destruct (JSON_parse _) |]; reflexivity.
  - destruct (Regex.test emailRegex email) eqn:Hemail;
      destruct (le_lt_dec 6 (String.length password)) as [Hpw | Hpw];
      try (rewrite login_rejects by auto; reflexivity).
    rewrite login_accepts by assumption. reflexivity.
  - reflexivity.
  - rewrite updateUser_state. reflexivity.
  - destruct (validateSession_outcome Date_valueOf now s) as [-> | ->]; reflexivity.
Qed.

Lemma run_isLoading_false ops : forall s,
  isLoading s = false -> isLoading (run ops s) = false.
Proof.
  induction ops as [| op ops IH]; intros s Hs; [exact Hs |].
  unfold_run. fold (run ops (step s op)). apply IH.
  rewrite step_isLoading. destruct op; auto.
Qed.

(** X10.  [isLoading] is cleared by the bootstrap and by nothing else, and
    never set again: after a sequence of operations that contains the
    bootstrap it is false, and after a sequence without it it is what it
    was. *)
Theorem isLoading_cleared_by_bootstrap_only ops s :
  (In Bootstrap ops -> isLoading (run ops s) = false) /\
  (~ In Bootstrap ops -> isLoading (run ops s) = isLoading s).
Proof.
  revert s. induction ops as [| op ops IH]; intros s.
  - split; [intros [] | reflexivity].
  - unfold_run. fold (run ops (step s op)). split.
    + intros [-> | Hin].
      * apply run_isLoading_false. apply step_isLoading.
      * apply (proj1 (IH _) Hin).
    + intros Hnot.
      rewrite (proj2 (IH (step s op))) by (intros Hin; apply Hnot; right; exact Hin).
      rewrite step_isLoading.
      destruct op; try reflexivity. destruct Hnot. left. reflexivity.
Qed.

(** X11.  [updateUser] with nothing to merge ([null], [undefined], an empty
    object, a number or a boolean) leaves a Session (an object, each key
    once) as it is, and rewrites each tier that holds a non-empty [user]
    entry with the text of that unchanged Session. *)
Theorem updateUser_nothing_to_merge userData s ps :
  own_props userData = [] ->
  user s = JObj ps ->
  NoDup ps.*1 ->
  let s' := exec (updateUser userData) s in
  user s' = user s /\
  localStorage s' =
    (if truthy_item (localStorage s !! "user")
     then <["user" := JSON_stringify (user s)]> (localStorage s)
     else localStorage s) /\
  sessionStorage s' =
    (if truthy_item (sessionStorage s !! "user")
     then <["user" := JSON_stringify (user s)]> (sessionStorage s)
     else sessionStorage s).
Proof.
  intros Hempty Hu Hnd s'. subst s'. unfold exec. rewrite updateUser_state.
  cbn [snd user localStorage sessionStorage].
  assert (Hsame : merge (user s) userData = user s).
  { unfold merge. rewrite Hempty, Hu. cbn [own_props].
    unfold spread_into at 1. cbn [fold_left].
    rewrite spread_object_copy by assumption. reflexivity. }
  rewrite Hsame. auto.
Qed.

End ProviderFacts.

(** * Properties of the pages *)

(** ** Strings as lists of code units *)

Lemma list_ascii_app (a b : string) :
  list_ascii_of_string (a +:+ b) =
  (list_ascii_of_string a ++ list_ascii_of_string b)%list.
Proof. induction a as [| c a IH]; simpl; [reflexivity | rewrite IH; reflexivity]. Qed.

Lemma length_list_ascii (a : string) :
  length (list_ascii_of_string a) = String.length a.
Proof. induction a as [| c a IH]; simpl; [reflexivity | rewrite IH; reflexivity]. Qed.

Lemma string_split_at c (s : string) :
  In c (list_ascii_of_string s) -> exists a b, s = a +:+ String c b.
Proof.
  induction s as [| c0 s IH]; simpl; [intros [] |].
  intros [-> | Hin].
  - exists "", s. reflexivity.
  - destruct (IH Hin) as (a & b & ->). exists (String c0 a), b. reflexivity.
Qed.

(** ** Unanchored search for a character class *)

Lemma regex_search_class p s :
  regex_search (Regex.Class p) s = true <->
  exists c, In c (list_ascii_of_string s) /\ p c = true.
Proof.
  unfold regex_search. rewrite RegexFacts.test_lang. split.
  - intros H.
    apply RegexFacts.lang_seq_inv in H as (a & r & -> & _ & H).
    apply RegexFacts.lang_seq_inv in H as (m & b & -> & Hm & _).
    inversion Hm; subst. exists c. split; [| assumption].
    rewrite !list_ascii_app. apply in_or_app. right. simpl. auto.
  - intros (c & Hin & Hp). apply string_split_at in Hin as (a & b & ->).
    apply Regex.lang_seq; [apply RegexFacts.lang_star_class; reflexivity |].
    change (String c b) with (String c "" +:+ b).
    apply Regex.lang_seq; [apply Regex.lang_class; exact Hp |].
    apply RegexFacts.lang_star_class. reflexivity.
Qed.

Lemma regex_search_class_empty p : regex_search (Regex.Class p) "" = false.
Proof. reflexivity. Qed.

Lemma regex_search_class_false p s :
  regex_search (Regex.Class p) s = false <->
  forall c, In c (list_ascii_of_string s) -> p c = false.
Proof.
  split.
  - intros H c Hin. destruct (p c) eqn:Hp; [| reflexivity].
    assert (regex_search (Regex.Class p) s = true)
      by (apply regex_search_class; eauto).
    congruence.
  - intros H. destruct (regex_search (Regex.Class p) s) eqn:E; [| reflexivity].
    apply regex_search_class in E as (c & Hin & Hp).
    rewrite (H c Hin) in Hp. discriminate.
Qed.

(** ** validateEmail *)

Lemma plain_no_at s : plain s -> count_occ ascii_dec (list_ascii_of_string s) "@"%char = 0%nat.
Proof.
  intros [_ Hall]. apply count_occ_not_In. intros Hin.
  destruct (Hall _ Hin) as [_ Hne]. congruence.
Qed.

Lemma plain_length s : plain s -> (1 <= String.length s)%nat.
Proof. intros [Hne _]. destruct s; [congruence | simpl; lia]. Qed.

(** X12.  An e-mail that [validateEmail] accepts contains no white space,
    contains [@] exactly once, and has at least five characters. *)
Theorem validateEmail_accepts_only email :
  validateEmail email = true ->
  (forall c, In c (list_ascii_of_string email) -> white_space c = false) /\
  count_occ ascii_dec (list_ascii_of_string email) "@"%char = 1%nat /\
  (5 <= String.length email)%nat.
Proof.
  unfold validateEmail. rewrite emailRegex_shape.
  intros (a & b & c & -> & Ha & Hb & Hc).
  change ("@" +:+ b +:+ "." +:+ c) with (String "@" (b +:+ String "." c)).
  split; [| split].
  - intros ch. rewrite list_ascii_app. cbn [list_ascii_of_string].
    rewrite list_ascii_app. cbn [list_ascii_of_string].
    rewrite in_app_iff. cbn [In]. rewrite in_app_iff. cbn [In].
    intros [Hin | [<- | [Hin | [<- | Hin]]]];
      try reflexivity;
      [apply (proj2 Ha) in Hin | apply (proj2 Hb) in Hin | apply (proj2 Hc) in Hin];
      tauto.
  - rewrite list_ascii_app. cbn [list_ascii_of_string].
    rewrite list_ascii_app. cbn [list_ascii_of_string].
    rewrite count_occ_app. rewrite count_occ_cons_eq by reflexivity.
    rewrite count_occ_app. rewrite count_occ_cons_neq by discriminate.
    rewrite (plain_no_at a Ha), (plain_no_at b Hb), (plain_no_at c Hc). reflexivity.
  - apply plain_length in Ha, Hb, Hc.
    rewrite <- length_list_ascii, list_ascii_app. cbn [list_ascii_of_string].
    rewrite list_ascii_app. cbn [list_ascii_of_string].
    rewrite length_app. cbn [length]. rewrite length_app. cbn [length].
    rewrite !length_list_ascii. lia.
Qed.

(** ** Password strength *)

Lemma character_kind c :
  upper_case c = true \/ lower_case c = true \/ digit c = true \/ special c = true.
Proof.
  unfold special.
  destruct (upper_case c); [auto |]. destruct (lower_case c); [auto |].
  destruct (digit c); auto.
Qed.

Lemma some_kind_found c password :
  regex_search (Regex.Class upper_case) (String c password)
  || regex_search (Regex.Class lower_case) (String c password)
  || regex_search (Regex.Class digit) (String c password)
  || regex_search (Regex.Class special) (String c password) = true.
Proof.
  assert (Hin : In c (list_ascii_of_string (String c password))) by (simpl; auto).
  rewrite !orb_true_iff, !regex_search_class.
  destruct (character_kind c) as [H | [H | [H | H]]]; eauto 10.
Qed.

Lemma calculatePasswordStrength_range password :
  0 <= SignUpPage.calculatePasswordStrength password <= 5.
Proof.
  unfold SignUpPage.calculatePasswordStrength.
  repeat match goal with
         | |- context [if ?b then _ else _] => destruct b
         end; lia.
Qed.

(** X13.  [calculatePasswordStrength] counts five criteria: the result lies
    between 0 and 5; it is 0 exactly for the empty password; it is 5 exactly
    when the password has at least 8 characters and contains an upper-case
    letter, a lower-case letter, a digit and a character that is none of
    these. *)
Theorem calculatePasswordStrength_counts password :
  let strength := SignUpPage.calculatePasswordStrength password in
  let contains (kind : ascii -> bool) :=
    exists c, In c (list_ascii_of_string password) /\ kind c = true in
  0 <= strength <= 5 /\
  (strength = 0 <-> password = "") /\
  (strength = 5 <->
   (8 <= String.length password)%nat /\
   contains upper_case /\ contains lower_case /\
   contains digit /\ contains special).
Proof.
  cbv zeta. unfold SignUpPage.calculatePasswordStrength.
  rewrite <- !regex_search_class.
  destruct password as [| c password].
  - cbn. split; [lia |]. split; [tauto |].
    split; [discriminate | intros [H _]; lia].
  - pose proof (some_kind_found c password) as Hkind.
    assert (Hlen : (8 <= String.length (String c password))%nat <->
                   (8 <=? String.length (String c password))%nat = true)
      by (symmetry; apply Nat.leb_le).
    rewrite Hlen.
    destruct (8 <=? String.length (String c password))%nat;
      destruct (regex_search (Regex.Class upper_case) (String c password));
      destruct (regex_search (Regex.Class lower_case) (String c password));
      destruct (regex_search (Regex.Class digit) (String c password));
      destruct (regex_search (Regex.Class special) (String c password));
      cbn in Hkind |- *; try discriminate Hkind;
      (split; [lia |]); (split; [split; [lia | discriminate] |]);
      (split; [try lia; auto 10 | intros (? & ? & ? & ? & ?); try discriminate; reflexivity]).
Qed.

Lemma getPasswordStrengthInfo_cases strength :
  SignUpPage.getPasswordStrengthInfo strength =
  Some (if strength =? 1 then SignUpPage.mkLevel "Weak" "text-orange-500" "bg-orange-500"
        else if strength =? 2 then SignUpPage.mkLevel "Fair" "text-yellow-500" "bg-yellow-500"
        else if strength =? 3 then SignUpPage.mkLevel "Good" "text-blue-500" "bg-blue-500"
        else if strength =? 4 then SignUpPage.mkLevel "Strong" "text-green-500" "bg-green-500"
        else SignUpPage.mkLevel "Very Weak" "text-red-500" "bg-red-500").
Proof.
  unfold SignUpPage.getPasswordStrengthInfo, SignUpPage.element.
  destruct (strength <? 0) eqn:Hneg.
  - apply Z.ltb_lt in Hneg.
    repeat match goal with
           | |- context [?a =? ?b] => destruct (Z.eqb_spec a b); [lia |]
           end.
    reflexivity.
  - apply Z.ltb_ge in Hneg.
    destruct (Z.to_nat strength) as [| [| [| [| [| n]]]]] eqn:Hn;
      repeat match goal with
             | |- context [?a =? ?b] => destruct (Z.eqb_spec a b); try lia
             end;
      reflexivity.
Qed.

(** X14.  The label shown for a password.  After a change of the password
    input, the strength label of the page is [Very Weak] both for the empty
    password and for a password that meets all five criteria (the table has
    five entries, index 5 falls back to the first); it is [Strong] exactly
    when the password meets exactly four criteria. *)
Theorem strongest_password_labelled_very_weak value s :
  let s' := Comp.exec (SignUpPage.handleInputChange (SignUpPage.PasswordChange value)) s in
  let strength := SignUpPage.calculatePasswordStrength value in
  SignUpPage.passwordStrength s' = strength /\
  exists level,
    SignUpPage.getPasswordStrengthInfo (SignUpPage.passwordStrength s') = Some level /\
    (SignUpPage.text level = "Very Weak" <-> strength = 0 \/ strength = 5) /\
    (SignUpPage.text level = "Strong" <-> strength = 4).
Proof.
  cbv zeta.
  assert (Hs : SignUpPage.passwordStrength
                 (Comp.exec (SignUpPage.handleInputChange (SignUpPage.PasswordChange value)) s)
               = SignUpPage.calculatePasswordStrength value).
  { unfold Comp.exec, SignUpPage.handleInputChange.
    cbv beta iota delta [mbind Comp.C_bind mret Comp.C_ret Comp.gets Comp.modify
                         Comp.when SignUpPage.setFormData SignUpPage.setPasswordStrength
                         SignUpPage.setErrors].
    cbn [fst snd].
    repeat match goal with
           | |- context [if ?b then _ else _] => destruct b
           end; reflexivity. }
  split; [exact Hs |]. rewrite Hs.
  pose proof (calculatePasswordStrength_range value) as Hrange.
  rewrite getPasswordStrengthInfo_cases. eexists. split; [reflexivity |].
  set (n := SignUpPage.calculatePasswordStrength value) in *.
  repeat match goal with
         | |- context [?a =? ?b] => destruct (Z.eqb_spec a b)
         end; cbn [SignUpPage.text];
    (split; split; intros H; try discriminate H; try lia; try reflexivity).
Qed.

(** ** LoginPage *)

(** Evaluation of a page handler down to the cells. *)
Ltac eval_C :=
  cbv beta iota delta
    [Comp.exec Comp.page Comp.provider Comp.gets Comp.modify Comp.when
     Comp.try_catch Comp.try_finally Comp.throw
     mbind Comp.C_bind mret Comp.C_ret
     LoginPage.handleSubmit LoginPage.handleInputChange
     LoginPage.setFormData LoginPage.setErrors
     LoginPage.setToast LoginPage.setIsSubmitting LoginPage.navigate_after];
  cbn [fst snd LoginPage.formData LoginPage.showPassword LoginPage.errors
       LoginPage.toast LoginPage.isSubmitting LoginPage.timers
       LoginPage.email LoginPage.password LoginPage.rememberMe].

Ltac simpl_cells :=
  cbn [fst snd LoginPage.formData LoginPage.showPassword LoginPage.errors
       LoginPage.toast LoginPage.isSubmitting LoginPage.timers
       LoginPage.email LoginPage.password LoginPage.rememberMe].

Lemma validateEmail_nonempty email : validateEmail email = true -> is_empty email = false.
Proof. destruct email; [discriminate | reflexivity]. Qed.

Lemma has_keys_set_prop k v ps : has_keys (set_prop k v ps) = true.
Proof.
  destruct ps as [| [k0 v0] ps]; [reflexivity |].
  cbn [set_prop]. destruct (String.eqb k0 k); reflexivity.
Qed.

(** The form check of [handleSubmit] passes exactly on the inputs [login]
    accepts. *)
Lemma LoginPage_form_errors form :
  LoginPage.form_errors form =
  if validateEmail (LoginPage.email form)
     && (6 <=? String.length (LoginPage.password form))%nat
  then []
  else LoginPage.form_errors form.
Proof. destruct (_ && _) eqn:E; [| reflexivity].
  apply andb_true_iff in E as [Hemail Hpw].
  unfold LoginPage.form_errors.
  rewrite (validateEmail_nonempty _ Hemail), Hemail. cbn [negb].
  apply Nat.leb_le in Hpw.
  destruct (LoginPage.password form) as [| c pw] eqn:Epw; [simpl in Hpw; lia |].
  cbn [is_empty String.eqb].
  assert (Hlt : (String.length (String c pw) <? 6)%nat = false) by (apply Nat.ltb_ge; exact Hpw).
  rewrite Hlt. reflexivity.
Qed.

Lemma LoginPage_form_errors_invalid form :
  validateEmail (LoginPage.email form)
  && (6 <=? String.length (LoginPage.password form))%nat = false ->
  has_keys (LoginPage.form_errors form) = true.
Proof.
  intros E. unfold LoginPage.form_errors. cbv zeta.
  destruct (is_empty (LoginPage.password form)) eqn:Hpe;
    [apply has_keys_set_prop |].
  destruct (String.length (LoginPage.password form) <? 6)%nat eqn:Hlt;
    [apply has_keys_set_prop |].
  destruct (is_empty (LoginPage.email form)); [apply has_keys_set_prop |].
  destruct (validateEmail (LoginPage.email form)); cbn [negb];
    [| apply has_keys_set_prop].
  apply Nat.ltb_ge in Hlt. apply Nat.leb_le in Hlt. rewrite Hlt in E. discriminate.
Qed.

Section LoginPageFacts.

Set Default Proof Using "Type".

Context (JSON_stringify : JSValue -> string)
        (Date_toISOString : Z -> string).

(** The [login] of the provider, at the clock readings of the call. *)
Local Abbreviation provider_login t_date t_now :=
  (fun email password rememberMe =>
     login JSON_stringify Date_toISOString email password rememberMe t_date t_now).

Lemma LoginPage_handleSubmit_state t_date t_now p a :
  let form := LoginPage.formData p in
  LoginPage.handleSubmit (provider_login t_date t_now) (p, a) =
  (Normal tt,
   if validateEmail (LoginPage.email form)
      && (6 <=? String.length (LoginPage.password form))%nat
   then
     (LoginPage.mkState form (LoginPage.showPassword p) []
        (mkToast true "Login successful! Redirecting..." "success") false
        (LoginPage.timers p ++ [(1000, "/dashboard")])%list,
      exec (login JSON_stringify Date_toISOString (LoginPage.email form)
              (LoginPage.password form) (LoginPage.rememberMe form) t_date t_now) a)
   else
     (LoginPage.mkState form (LoginPage.showPassword p) (LoginPage.form_errors form)
        (mkToast true "Please fix the errors above" "error") false
        (LoginPage.timers p),
      a)).
Proof.
  cbv zeta. eval_C.
  destruct (validateEmail (LoginPage.email (LoginPage.formData p))
            && (6 <=? String.length (LoginPage.password (LoginPage.formData p)))%nat) eqn:E.
  - rewrite LoginPage_form_errors, E. cbn [has_keys length Nat.ltb Nat.leb].
    apply andb_true_iff in E as [Hemail Hpw]. apply Nat.leb_le in Hpw.
    unfold validateEmail in Hemail.
    simpl_cells. unfold exec. rewrite !login_accepts by assumption.
    simpl_cells. reflexivity.
  - rewrite (LoginPage_form_errors_invalid _ E). simpl_cells. reflexivity.
Qed.

(** X15.  What a submission of the login form does.  When the e-mail is
    accepted by [validateEmail] and the password has at least 6 characters,
    [handleSubmit] calls [login] with the three inputs of the form, the
    visitor is authenticated with the Session of that login, the success
    toast is shown and the navigation to [/dashboard] is scheduled after
    1000 ms.  Otherwise [login] is not called: the provider state and both
    storage tiers are untouched, the messages of the failed checks are
    stored and the toast asks to fix them.  In both cases [isSubmitting] is
    false at the end. *)
Theorem LoginPage_handleSubmit_outcome t_date t_now p a :
  let form := LoginPage.formData p in
  let p' := fst (Comp.exec (LoginPage.handleSubmit (provider_login t_date t_now)) (p, a)) in
  let a' := snd (Comp.exec (LoginPage.handleSubmit (provider_login t_date t_now)) (p, a)) in
  (validateEmail (LoginPage.email form) = true ->
   (6 <= String.length (LoginPage.password form))%nat ->
   a' = exec (login JSON_stringify Date_toISOString (LoginPage.email form)
                (LoginPage.password form) (LoginPage.rememberMe form) t_date t_now) a /\
   isAuthenticated a' = true /\
   user a' = new_session Date_toISOString (LoginPage.email form)
               (LoginPage.rememberMe form) t_date t_now /\
   LoginPage.toast p' = mkToast true "Login successful! Redirecting..." "success" /\
   LoginPage.timers p' = (LoginPage.timers p ++ [(1000, "/dashboard")])%list /\
   LoginPage.errors p' = []) /\
  (validateEmail (LoginPage.email form) = false \/
   (String.length (LoginPage.password form) < 6)%nat ->
   a' = a /\
   LoginPage.errors p' = LoginPage.form_errors form /\
   LoginPage.errors p' <> [] /\
   LoginPage.toast p' = mkToast true "Please fix the errors above" "error" /\
   LoginPage.timers p' = LoginPage.timers p) /\
  LoginPage.isSubmitting p' = false /\
  LoginPage.formData p' = form.
Proof.
  cbv zeta. unfold Comp.exec.
  rewrite (LoginPage_handleSubmit_state t_date t_now p a). cbv zeta. cbn [snd].
  split; [| split].
  - intros Hemail Hpw. apply Nat.leb_le in Hpw as Hpw'.
    rewrite Hemail, Hpw'. cbn [andb fst snd].
    cbn [LoginPage.toast LoginPage.timers LoginPage.errors].
    unfold validateEmail in Hemail. unfold exec.
    rewrite login_accepts by assumption. cbn [snd user isAuthenticated]. auto 10.
  - intros Hbad.
    assert (E : validateEmail (LoginPage.email (LoginPage.formData p))
                && (6 <=? String.length (LoginPage.password (LoginPage.formData p)))%nat
                = false).
    { destruct Hbad as [-> | Hlt]; [reflexivity |].
      apply Nat.leb_gt in Hlt. rewrite Hlt. apply andb_false_r. }
    rewrite E. cbn [fst snd LoginPage.toast LoginPage.timers LoginPage.errors].
    repeat split; try reflexivity.
    pose proof (LoginPage_form_errors_invalid _ E) as Hkeys.
    intros Hnil. rewrite Hnil in Hkeys. discriminate.
  - destruct (_ && _); cbn [fst LoginPage.isSubmitting LoginPage.formData]; auto.
Qed.

(** X16.  The form check and [login] agree, so a submission never reports a
    failed login: whatever the form holds, [handleSubmit] completes
    normally and the toast it leaves is either the request to fix the form
    or the success message; the toasts for a rejected login and for an
    exception are never shown. *)
Theorem LoginPage_handleSubmit_reports_no_failure t_date t_now p a :
  let result := LoginPage.handleSubmit (provider_login t_date t_now) (p, a) in
  let shown := LoginPage.toast (fst (snd result)) in
  fst result = Normal tt /\
  (shown = mkToast true "Please fix the errors above" "error" \/
   shown = mkToast true "Login successful! Redirecting..." "success") /\
  toast_message shown <> "Login failed. Please check your credentials." /\
  toast_message shown <> "An error occurred. Please try again.".
Proof.
  cbv zeta. rewrite (LoginPage_handleSubmit_state t_date t_now p a). cbv zeta.
  cbn [fst snd].
  destruct (_ && _); cbn [fst LoginPage.toast toast_message];
    (split; [reflexivity |]); (split; [auto |]); split; discriminate.
Qed.

Lemma get_prop_with_error k message prev :
  get_prop k (with_error k message prev) = Some (JStr message).
Proof. unfold with_error. rewrite get_prop_set_prop, String.eqb_refl. reflexivity. Qed.

Lemma some_error_get_prop k v ps :
  get_prop k ps = Some v -> truthy v = true -> some_error ps = true.
Proof.
  unfold some_error. induction ps as [| [k0 v0] ps IH]; cbn [get_prop existsb snd];
    [discriminate |].
  destruct (String.eqb k0 k).
  - intros [= ->] ->. reflexivity.
  - intros Hk Hv. rewrite (IH Hk Hv). apply orb_true_r.
Qed.

(** X17.  An error of the live check outlives its text: after an e-mail
    that [validateEmail] rejects has been typed and the field has then been
    emptied, the field is empty, the message of the rejected e-mail is still
    stored, and the submit button is disabled. *)
Theorem LoginPage_emptied_field_keeps_error value s :
  value <> "" ->
  validateEmail value = false ->
  let s' := LoginPage.changes [LoginPage.EmailChange value; LoginPage.EmailChange ""] s in
  LoginPage.email (LoginPage.formData s') = "" /\
  get_prop "email" (LoginPage.errors s') =
    Some (JStr "Please enter a valid email address") /\
  LoginPage.submit_disabled s' = true.
Proof.
  clear JSON_stringify Date_toISOString.
  intros Hne Hbad s'. subst s'. unfold LoginPage.changes. cbn [fold_left].
  eval_C. apply String.eqb_neq in Hne. unfold is_empty.
  rewrite Hne, Hbad. cbn [negb]. simpl_cells.
  change (String.eqb "" "") with true. cbn [negb]. simpl_cells.
  split; [reflexivity |]. split; [apply get_prop_with_error |].
  unfold LoginPage.submit_disabled. simpl_cells.
  rewrite (some_error_get_prop "email" _ _ (get_prop_with_error _ _ _)) by reflexivity.
  apply orb_true_r.
Qed.

(** X18.  From the empty login form to a Session.  Typing an e-mail that
    [validateEmail] accepts and a password of at least 6 characters into the
    initial form, and setting the remember-me box, leaves the submit button
    enabled; submitting then authenticates the visitor with a Session that
    carries exactly that e-mail and that remember-me choice. *)
Theorem LoginPage_typed_credentials_log_in t_date t_now email password remember a :
  validateEmail email = true ->
  (6 <= String.length password)%nat ->
  let p := LoginPage.changes
             [LoginPage.EmailChange email; LoginPage.PasswordChange password;
              LoginPage.RememberMeChange remember] LoginPage.initial in
  let a' := snd (Comp.exec (LoginPage.handleSubmit (provider_login t_date t_now)) (p, a)) in
  LoginPage.submit_disabled p = false /\
  isAuthenticated a' = true /\
  user a' = new_session Date_toISOString email remember t_date t_now /\
  a' = exec (login JSON_stringify Date_toISOString email password remember t_date t_now) a.
Proof.
  intros Hemail Hpw p.
  assert (Hp : p = LoginPage.mkState (LoginPage.mkFormData email password remember)
                     false [("email", JStr ""); ("password", JStr "")]
                     no_toast false []).
  { subst p. unfold LoginPage.changes, LoginPage.initial. cbn [fold_left].
    eval_C. rewrite (validateEmail_nonempty _ Hemail), Hemail. cbn [negb]. simpl_cells.
    assert (Hpe : is_empty password = false)
      by (destruct password; [simpl in Hpw; lia | reflexivity]).
    assert (Hlt : (String.length password <? 6)%nat = false)
      by (apply Nat.ltb_ge; exact Hpw).
    rewrite Hpe, Hlt. cbn [negb]. simpl_cells. reflexivity. }
  intros a'. split; [rewrite Hp; reflexivity |].
  subst a'. unfold Comp.exec.
  rewrite (LoginPage_handleSubmit_state t_date t_now p a). cbv zeta.
  rewrite Hp. cbn [LoginPage.formData LoginPage.email LoginPage.password
                   LoginPage.rememberMe].
  apply Nat.leb_le in Hpw as Hpw'. rewrite Hemail, Hpw'. cbn [andb fst snd].
  unfold validateEmail in Hemail. unfold exec.
  rewrite login_accepts by assumption. cbn [snd user isAuthenticated]. auto.
Qed.

End LoginPageFacts.

(** ** SignUpPage *)

Ltac eval_signup :=
  cbv beta iota delta
    [Comp.exec Comp.page Comp.provider Comp.gets Comp.modify Comp.when
     Comp.try_catch Comp.try_finally Comp.throw
     mbind Comp.C_bind mret Comp.C_ret
     SignUpPage.handleSubmit SignUpPage.handleInputChange SignUpPage.call_signup
     SignUpPage.provided_signup SignUpPage.set_field
     SignUpPage.setFormData SignUpPage.setErrors
     SignUpPage.setToast SignUpPage.setIsSubmitting SignUpPage.navigate_after
     SignUpPage.setPasswordStrength];
  cbn [fst snd SignUpPage.formData SignUpPage.showPassword SignUpPage.errors
       SignUpPage.showConfirmPassword SignUpPage.passwordStrength
       SignUpPage.toast SignUpPage.isSubmitting SignUpPage.timers
       SignUpPage.firstName SignUpPage.lastName SignUpPage.email
       SignUpPage.password SignUpPage.confirmPassword SignUpPage.agreeToTerms].

Ltac simpl_signup :=
  cbn [fst snd SignUpPage.formData SignUpPage.showPassword SignUpPage.errors
       SignUpPage.showConfirmPassword SignUpPage.passwordStrength
       SignUpPage.toast SignUpPage.isSubmitting SignUpPage.timers
       SignUpPage.firstName SignUpPage.lastName SignUpPage.email
       SignUpPage.password SignUpPage.confirmPassword SignUpPage.agreeToTerms].

Lemma is_empty_length value : is_empty value = true -> String.length value = 0%nat.
Proof. destruct value; [reflexivity | discriminate]. Qed.

Lemma is_empty_false_length value : is_empty value = false <-> (1 <= String.length value)%nat.
Proof. destruct value; simpl; split; try discriminate; try lia; reflexivity. Qed.

Lemma SignUpPage_form_errors_complete form :
  signup_form_complete form <-> has_keys (SignUpPage.form_errors form) = false.
Proof.
  unfold signup_form_complete, SignUpPage.form_errors. cbv zeta.
  destruct form as [first last mail pw confirm agree]. simpl_signup.
  split.
  - intros (H1 & H2 & H3 & H4 & -> & ->).
    assert (E1 : is_empty first = false) by (apply is_empty_false_length; lia).
    assert (E2 : is_empty last = false) by (apply is_empty_false_length; lia).
    assert (E4 : is_empty pw = false) by (apply is_empty_false_length; lia).
    apply Nat.ltb_ge in H1, H2, H4.
    rewrite E1, E2, E4, H1, H2, H4, H3, (validateEmail_nonempty _ H3), String.eqb_refl.
    reflexivity.
  - intros Hkeys.
    destruct agree; cbn [negb] in Hkeys; [| rewrite has_keys_set_prop in Hkeys; discriminate].
    destruct (is_empty confirm) eqn:Ec;
      [rewrite has_keys_set_prop in Hkeys; discriminate |].
    destruct (String.eqb pw confirm) eqn:Eeq; cbn [negb] in Hkeys;
      [| rewrite has_keys_set_prop in Hkeys; discriminate].
    destruct (is_empty pw) eqn:Ep;
      [rewrite has_keys_set_prop in Hkeys; discriminate |].
    destruct (String.length pw <? 8)%nat eqn:Hp;
      [rewrite has_keys_set_prop in Hkeys; discriminate |].
    destruct (is_empty mail) eqn:Em;
      [rewrite has_keys_set_prop in Hkeys; discriminate |].
    destruct (validateEmail mail) eqn:Hm; cbn [negb] in Hkeys;
      [| rewrite has_keys_set_prop in Hkeys; discriminate].
    destruct (is_empty last) eqn:El;
      [rewrite has_keys_set_prop in Hkeys; discriminate |].
    destruct (String.length last <? 2)%nat eqn:Hl;
      [rewrite has_keys_set_prop in Hkeys; discriminate |].
    destruct (is_empty first) eqn:Ef;
      [rewrite has_keys_set_prop in Hkeys; discriminate |].
    destruct (String.length first <? 2)%nat eqn:Hf;
      [rewrite has_keys_set_prop in Hkeys; discriminate |].
    apply Nat.ltb_ge in Hp, Hl, Hf. apply String.eqb_eq in Eeq.
    repeat split; auto.
Qed.

Lemma provides_signup : provides "signup" = false.
Proof. reflexivity. Qed.

(** X19.  Signing up never works with this provider.  The object the
    provider passes to its consumers has no [signup] member; so
    [handleSubmit] of the sign-up page, on a complete form (names of at
    least 2 characters, an accepted e-mail, a password of at least 8
    characters repeated identically, the terms agreed), ends in the toast
    for an exception, and on any other form in the request to fix the form.
    In neither case is the success toast shown, a navigation scheduled or
    the provider state touched, and [isSubmitting] is false at the end. *)
Theorem SignUpPage_handleSubmit_never_succeeds p a :
  let result := SignUpPage.handleSubmit SignUpPage.provided_signup (p, a) in
  let p' := fst (snd result) in
  provides "signup" = false /\
  fst result = Normal tt /\
  snd (snd result) = a /\
  SignUpPage.timers p' = SignUpPage.timers p /\
  SignUpPage.isSubmitting p' = false /\
  (signup_form_complete (SignUpPage.formData p) ->
   SignUpPage.toast p' = mkToast true "An error occurred. Please try again." "error") /\
  (~ signup_form_complete (SignUpPage.formData p) ->
   SignUpPage.toast p' = mkToast true "Please fix the errors above" "error") /\
  toast_type (SignUpPage.toast p') = "error".
Proof.
  cbv zeta. split; [reflexivity |].
  pose proof (SignUpPage_form_errors_complete (SignUpPage.formData p)) as Hc.
  eval_signup.
  destruct (has_keys (SignUpPage.form_errors (SignUpPage.formData p))) eqn:Hkeys;
    simpl_signup; cbn [toast_type].
  - repeat split; try reflexivity.
    intros Hcomplete. apply Hc in Hcomplete. discriminate.
  - repeat split; try reflexivity.
    intros Hnot. destruct Hnot. apply Hc. reflexivity.
Qed.

(** X20.  The live check of the repeated password gives the same verdict in
    both typing orders: after the password and then a non-empty repetition
    have been typed, and likewise after a non-empty repetition and then the
    password, the stored [confirmPassword] message is empty when the two
    texts are equal and [Passwords do not match] otherwise. *)
Theorem SignUpPage_confirm_check_either_order pw confirm s :
  confirm <> "" ->
  let verdict :=
    Some (JStr (if String.eqb confirm pw then "" else "Passwords do not match")) in
  get_prop "confirmPassword"
    (SignUpPage.errors
       (SignUpPage.changes
          [SignUpPage.PasswordChange pw; SignUpPage.ConfirmPasswordChange confirm] s))
  = verdict /\
  get_prop "confirmPassword"
    (SignUpPage.errors
       (SignUpPage.changes
          [SignUpPage.ConfirmPasswordChange confirm; SignUpPage.PasswordChange pw] s))
  = verdict.
Proof.
  intros Hne verdict. subst verdict.
  assert (Hc : is_empty confirm = false) by (apply String.eqb_neq; exact Hne).
  unfold SignUpPage.changes. cbn [fold_left]. split.
  - eval_signup. rewrite Hc. cbn [negb].
    destruct (negb (is_empty pw) && (String.length pw <? 8)%nat);
      destruct (negb (is_empty (SignUpPage.confirmPassword (SignUpPage.formData s)))
                && negb (String.eqb pw (SignUpPage.confirmPassword (SignUpPage.formData s))));
      try destruct (negb (is_empty (SignUpPage.confirmPassword (SignUpPage.formData s))));
      simpl_signup; destruct (String.eqb confirm pw); cbn [negb]; simpl_signup;
      apply get_prop_with_error.
  - eval_signup. rewrite Hc. cbn [negb].
    destruct (String.eqb confirm (SignUpPage.password (SignUpPage.formData s)));
      cbn [negb]; simpl_signup; rewrite Hc; cbn [negb andb];
      destruct (negb (is_empty pw) && (String.length pw <? 8)%nat); simpl_signup;
      rewrite (String.eqb_sym pw confirm);
      destruct (String.eqb confirm pw); cbn [negb]; simpl_signup;
      apply get_prop_with_error.
Qed.

(** ** ForgotPasswordPage *)

Ltac eval_forgot :=
  cbv beta iota delta
    [Comp.exec Comp.gets Comp.modify Comp.when
     Comp.try_catch Comp.try_finally Comp.throw
     mbind Comp.C_bind mret Comp.C_ret
     ForgotPasswordPage.handleSubmit ForgotPasswordPage.handleEmailChange
     ForgotPasswordPage.setEmail ForgotPasswordPage.setIsSubmitting
     ForgotPasswordPage.setIsSuccess ForgotPasswordPage.setError
     ForgotPasswordPage.setToast ForgotPasswordPage.submit_disabled];
  cbn [fst snd ForgotPasswordPage.email ForgotPasswordPage.isSubmitting
       ForgotPasswordPage.isSuccess ForgotPasswordPage.error
       ForgotPasswordPage.toast].

Lemma ForgotPasswordPage_handleSubmit_state s :
  ForgotPasswordPage.handleSubmit s =
  (Normal tt,
   if validateEmail (ForgotPasswordPage.email s) then
     ForgotPasswordPage.mkState (ForgotPasswordPage.email s) false true ""
       (mkToast true "Password reset instructions sent to your email!" "success")
   else
     ForgotPasswordPage.mkState (ForgotPasswordPage.email s)
       (ForgotPasswordPage.isSubmitting s) (ForgotPasswordPage.isSuccess s)
       (if is_empty (ForgotPasswordPage.email s)
        then "Email is required" else "Please enter a valid email address")
       (ForgotPasswordPage.toast s)).
Proof.
  eval_forgot.
  destruct (is_empty (ForgotPasswordPage.email s)) eqn:Hempty.
  - destruct (validateEmail _) eqn:E; [| reflexivity].
    apply validateEmail_nonempty in E. congruence.
  - destruct (validateEmail (ForgotPasswordPage.email s)); reflexivity.
Qed.

(** X21.  A reset request succeeds exactly for an accepted e-mail.  When
    [validateEmail] accepts the stored e-mail, [handleSubmit] sets
    [isSuccess], shows the success toast, clears the error and ends with
    [isSubmitting] false.  Otherwise it only stores a message ([Email is
    required] for the empty text, the invalid-address message for any other)
    and changes nothing else: no request is started.  It completes normally
    in both cases and never sets the failure message or the failure
    toast. *)
Theorem ForgotPasswordPage_handleSubmit_outcome s :
  let result := ForgotPasswordPage.handleSubmit s in
  let s' := snd result in
  fst result = Normal tt /\
  (validateEmail (ForgotPasswordPage.email s) = true ->
   s' = ForgotPasswordPage.mkState (ForgotPasswordPage.email s) false true ""
          (mkToast true "Password reset instructions sent to your email!" "success")) /\
  (validateEmail (ForgotPasswordPage.email s) = false ->
   s' = ForgotPasswordPage.mkState (ForgotPasswordPage.email s)
          (ForgotPasswordPage.isSubmitting s) (ForgotPasswordPage.isSuccess s)
          (if is_empty (ForgotPasswordPage.email s)
           then "Email is required" else "Please enter a valid email address")
          (ForgotPasswordPage.toast s)) /\
  ForgotPasswordPage.error s' <> "Failed to send reset email. Please try again.".
Proof.
  cbv zeta. rewrite ForgotPasswordPage_handleSubmit_state. cbn [fst snd].
  split; [reflexivity |].
  destruct (validateEmail (ForgotPasswordPage.email s));
    (split; [intros; try discriminate; reflexivity |]);
    (split; [intros; try discriminate; reflexivity |]);
    cbn [ForgotPasswordPage.error]; [discriminate |].
  destruct (is_empty _); discriminate.
Qed.

(** X22.  An enabled button means a request that succeeds.  After a change
    of the e-mail input, with no request in progress, the submit button is
    enabled exactly when [validateEmail] accepts the text typed; and
    submitting with the button enabled always reaches the success state. *)
Theorem ForgotPasswordPage_enabled_button_submits value s :
  ForgotPasswordPage.isSubmitting s = false ->
  let s1 := Comp.exec (ForgotPasswordPage.handleEmailChange value) s in
  let s2 := Comp.exec ForgotPasswordPage.handleSubmit s1 in
  (ForgotPasswordPage.submit_disabled s1 = false <-> validateEmail value = true) /\
  (ForgotPasswordPage.submit_disabled s1 = false ->
   ForgotPasswordPage.isSuccess s2 = true /\
   ForgotPasswordPage.toast s2 =
     mkToast true "Password reset instructions sent to your email!" "success" /\
   ForgotPasswordPage.email s2 = value).
Proof.
  intros Hidle s1 s2.
  assert (Hs1 : s1 = ForgotPasswordPage.mkState value false (ForgotPasswordPage.isSuccess s)
                       (if negb (is_empty value) && negb (validateEmail value)
                        then "Please enter a valid email address" else "")
                       (ForgotPasswordPage.toast s)).
  { subst s1. eval_forgot. rewrite Hidle.
    destruct (negb (is_empty value) && negb (validateEmail value)); reflexivity. }
  assert (Hiff : ForgotPasswordPage.submit_disabled s1 = false <-> validateEmail value = true).
  { rewrite Hs1. unfold ForgotPasswordPage.submit_disabled.
    cbn [ForgotPasswordPage.isSubmitting ForgotPasswordPage.error ForgotPasswordPage.email orb].
    destruct (validateEmail value) eqn:Hv.
    - rewrite (validateEmail_nonempty _ Hv). cbn. tauto.
    - destruct (is_empty value); cbn; split; discriminate. }
  split; [exact Hiff |]. intros Henabled. apply Hiff in Henabled.
  subst s2. unfold Comp.exec. rewrite ForgotPasswordPage_handleSubmit_state.
  rewrite Hs1. cbn [snd ForgotPasswordPage.email]. rewrite Henabled. auto.
Qed.

(** ** App *)

(** X23.  The redirects of the pages cannot loop: at each path of the route
    table and for either value of [isAuthenticated], the page a redirect
    leads to issues no further redirect. *)
Theorem redirects_settle_in_one_step isAuthenticated path :
  In path (map fst App.routes) ->
  App.settle isAuthenticated (App.settle isAuthenticated path) =
  App.settle isAuthenticated path.
Proof.
  cbn [App.routes map fst In].
  intros [<- | [<- | [<- | [<- | [<- | []]]]]]; destruct isAuthenticated; reflexivity.
Qed.

(** X24.  Where a visitor lands.  Opening the application at [/], [/login],
    [/signup] or [/dashboard] ends on [/dashboard] exactly when the
    bootstrap authenticates; otherwise [/dashboard] has been left for
    [/login] and the other three paths are kept.  A remembered visitor who
    opens [/dashboard] is first sent to [/login], the pages rendering over
    the mount state before the bootstrap runs.  [/forgot-password] is kept
    in every case. *)
Theorem landing_follows_bootstrap JSON_parse ls ss path :
  In path ["/"; "/login"; "/signup"; "/dashboard"] ->
  App.landing JSON_parse ls ss path =
    (if isAuthenticated (exec (initializeAuth JSON_parse) (mount ls ss))
     then "/dashboard"
     else if String.eqb path "/dashboard" then "/login" else path) /\
  App.settle (isAuthenticated (mount ls ss)) "/dashboard" = "/login" /\
  App.landing JSON_parse ls ss "/forgot-password" = "/forgot-password".
Proof.
  unfold App.landing. cbn [mount isAuthenticated].
  intros [<- | [<- | [<- | [<- | []]]]];
    destruct (isAuthenticated (exec (initializeAuth JSON_parse) (mount ls ss)));
    repeat split; reflexivity.
Qed.

(** ** DashboardPage *)

(** X25.  Leaving through the dashboard.  A declined confirmation changes
    nothing: no navigation, the provider state and both tiers as they were.
    A confirmed one runs the provider's [logout] (no user, not
    authenticated, the Session gone from both tiers) and calls [navigate]
    with [/login], where the visitor stays: the login page issues no
    redirect for an anonymous visitor. *)
Theorem DashboardPage_handleLogout_outcome calls a :
  DashboardPage.handleLogout false (calls, a) = (Normal tt, (calls, a)) /\
  (let result := DashboardPage.handleLogout true (calls, a) in
   let a' := snd (snd result) in
   fst result = Normal tt /\
   fst (snd result) = (calls ++ ["/login"])%list /\
   a' = exec logout a /\
   user a' = JNull /\ isAuthenticated a' = false /\
   localStorage a' !! "user" = None /\ sessionStorage a' !! "user" = None /\
   App.settle (isAuthenticated a') "/login" = "/login").
Proof.
  split; [reflexivity |]. cbv zeta.
  unfold DashboardPage.handleLogout.
  cbv beta iota delta [Comp.when Comp.provider Comp.page Comp.modify
                       mbind Comp.C_bind mret Comp.C_ret].
  rewrite logout_state. cbn [fst snd]. unfold exec. rewrite logout_state.
  cbn [fst snd user isAuthenticated localStorage sessionStorage].
  pose proof (purged_lookup (localStorage a)) as [Hl _].
  pose proof (purged_lookup (sessionStorage a)) as [Hs _].
  repeat split; auto.
Qed.

(** ** The further properties on the reference platform *)

Module Runs.
Import Scenario.

Lemma remembered_login_survives_reload_witness :
  let session := new_session Reference.Date_toISOString "a@b.co" true t_login t_login in
  Reference.JSON_parse (Reference.JSON_stringify session) = Some session /\
  Reference.JSON_stringify session <> "" /\
  fst (login "a@b.co" "abcdef" true t_login t_login booted) = Normal true /\
  let s1 := exec (login "a@b.co" "abcdef" true t_login t_login) booted in
  let s2 := exec initializeAuth (mount (localStorage s1) ∅) in
  user s2 = session /\ isAuthenticated s2 = true /\ isLoading s2 = false.
Proof.
  intros session.
  assert (H1 : Reference.JSON_parse (Reference.JSON_stringify session) = Some session)
    by (vm_compute; reflexivity).
  assert (H2 : Reference.JSON_stringify session <> "") by (vm_compute; discriminate).
  assert (H3 : fst (login "a@b.co" "abcdef" true t_login t_login booted) = Normal true)
    by (vm_compute; reflexivity).
  split; [exact H1 |]. split; [exact H2 |]. split; [exact H3 |].
  exact (remembered_login_survives_reload
           Reference.JSON_stringify Reference.JSON_parse Reference.Date_toISOString
           "a@b.co" "abcdef" t_login t_login booted ∅ H1 H2 H3).
Defined.

Lemma tab_only_login_lost_on_reload_witness :
  localStorage booted !! "user" = None /\
  fst (login "a@b.co" "abcdef" false t_login t_login booted) = Normal true /\
  let s1 := exec (login "a@b.co" "abcdef" false t_login t_login) booted in
  let s2 := exec initializeAuth (mount (localStorage s1) (sessionStorage s1)) in
  isAuthenticated s2 = false /\ user s2 = JNull /\
  sessionStorage s2 !! "user" =
    Some (Reference.JSON_stringify
            (new_session Reference.Date_toISOString "a@b.co" false t_login t_login)).
Proof.
  assert (H1 : localStorage booted !! "user" = None) by (vm_compute; reflexivity).
  assert (H2 : fst (login "a@b.co" "abcdef" false t_login t_login booted) = Normal true)
    by (vm_compute; reflexivity).
  split; [exact H1 |]. split; [exact H2 |].
  exact (tab_only_login_lost_on_reload
           Reference.JSON_stringify Reference.JSON_parse Reference.Date_toISOString
           "a@b.co" "abcdef" t_login t_login booted H1 H2).
Defined.

Lemma login_session_expires_after_24h_witness :
  Reference.Date_valueOf (JStr (Reference.Date_toISOString t_login)) = Some t_login /\
  Reference.Date_toISOString t_login <> "" /\
  fst (login "a@b.co" "abcdef" true t_login t_login booted) = Normal true /\
  let s1 := exec (login "a@b.co" "abcdef" true t_login t_login) booted in
  validateSession (t_login + 25 * hour) s1 =
  if 24 * 60 * 60 * 1000 <? (t_login + 25 * hour) - t_login
  then (Normal false, exec logout s1)
  else (Normal true, s1).
Proof.
  assert (H1 : Reference.Date_valueOf (JStr (Reference.Date_toISOString t_login))
               = Some t_login) by (vm_compute; reflexivity).
  assert (H2 : Reference.Date_toISOString t_login <> "") by (vm_compute; discriminate).
  assert (H3 : fst (login "a@b.co" "abcdef" true t_login t_login booted) = Normal true)
    by (vm_compute; reflexivity).
  split; [exact H1 |]. split; [exact H2 |]. split; [exact H3 |].
  exact (login_session_expires_after_24h
           Reference.JSON_stringify Reference.Date_toISOString Reference.Date_valueOf
           "a@b.co" "abcdef" true t_login t_login booted (t_login + 25 * hour)
           H1 H2 H3).
Defined.

Lemma updateUser_replaces_login_time_witness :
  NoDup (own_props Visit.no_login_time).*1 /\
  member Visit.no_login_time "loginTime" = Some (JStr "") /\
  let s1 := exec (updateUser Visit.no_login_time) remembered in
  (truthy (JStr "") = false \/ Reference.Date_valueOf (JStr "") = None ->
   validateSession (t_login + 25 * hour) s1 = (Normal true, s1)) /\
  (forall t, truthy (JStr "") = true -> Reference.Date_valueOf (JStr "") = Some t ->
     validateSession (t_login + 25 * hour) s1 =
     if 24 * 60 * 60 * 1000 <? (t_login + 25 * hour) - t
     then (Normal false, exec logout s1)
     else (Normal true, s1)).
Proof.
  assert (H1 : NoDup (own_props Visit.no_login_time).*1)
    by (refine (bool_decide_unpack _ _); vm_compute; exact I).
  assert (H2 : member Visit.no_login_time "loginTime" = Some (JStr "")) by reflexivity.
  split; [exact H1 |]. split; [exact H2 |].
  exact (updateUser_replaces_login_time
           Reference.JSON_stringify Reference.Date_valueOf
           Visit.no_login_time remembered (JStr "") (t_login + 25 * hour) H1 H2).
Defined.

Lemma operations_keep_other_keys_witness :
  "theme" <> "user" /\ "theme" <> "isAuthenticated" /\
  localStorage (run page_life (mount Visit.themed ∅)) !! "theme" =
    localStorage (mount Visit.themed ∅) !! "theme" /\
  sessionStorage (run page_life (mount Visit.themed ∅)) !! "theme" =
    sessionStorage (mount Visit.themed ∅) !! "theme".
Proof.
  assert (H1 : "theme" <> "user") by discriminate.
  assert (H2 : "theme" <> "isAuthenticated") by discriminate.
  split; [exact H1 |]. split; [exact H2 |].
  exact (operations_keep_other_keys
           Reference.JSON_stringify Reference.JSON_parse
           Reference.Date_toISOString Reference.Date_valueOf
           page_life (mount Visit.themed ∅) "theme" H1 H2).
Defined.

Lemma remembered_has_fields : user remembered = JObj Visit.session_fields.
Proof. vm_compute. reflexivity. Defined.

Lemma updateUser_nothing_to_merge_witness :
  own_props JNull = [] /\
  user remembered = JObj Visit.session_fields /\
  NoDup Visit.session_fields.*1 /\
  let s' := exec (updateUser JNull) remembered in
  user s' = user remembered /\
  localStorage s' =
    (if truthy_item (localStorage remembered !! "user")
     then <["user" := Reference.JSON_stringify (user remembered)]> (localStorage remembered)
     else localStorage remembered) /\
  sessionStorage s' =
    (if truthy_item (sessionStorage remembered !! "user")
     then <["user" := Reference.JSON_stringify (user remembered)]> (sessionStorage remembered)
     else sessionStorage remembered).
Proof.
  assert (H1 : own_props JNull = []) by reflexivity.
  assert (H3 : NoDup Visit.session_fields.*1)
    by (refine (bool_decide_unpack _ _); vm_compute; exact I).
  split; [exact H1 |]. split; [exact remembered_has_fields |]. split; [exact H3 |].
  exact (updateUser_nothing_to_merge Reference.JSON_stringify
           JNull remembered Visit.session_fields H1 remembered_has_fields H3).
Defined.

Lemma validateSession_after_expiry_passes_witness :
  fst (validateSession (t_login + 25 * hour) remembered) = Normal false /\
  let s1 := exec (validateSession (t_login + 25 * hour)) remembered in
  validateSession (t_login + 26 * hour) s1 = (Normal true, s1).
Proof.
  assert (H : fst (validateSession (t_login + 25 * hour) remembered) = Normal false)
    by (vm_compute; reflexivity).
  split; [exact H |].
  exact (validateSession_after_expiry_passes Reference.Date_valueOf
           (t_login + 25 * hour) remembered (t_login + 26 * hour) H).
Defined.

Lemma validateEmail_accepts_only_witness :
  validateEmail "a@b.co" = true /\
  (forall c, In c (list_ascii_of_string "a@b.co") -> white_space c = false) /\
  count_occ ascii_dec (list_ascii_of_string "a@b.co") "@"%char = 1%nat /\
  (5 <= String.length "a@b.co")%nat.
Proof.
  assert (H : validateEmail "a@b.co" = true) by (vm_compute; reflexivity).
  split; [exact H |]. exact (validateEmail_accepts_only "a@b.co" H).
Defined.

Lemma LoginPage_emptied_field_keeps_error_witness :
  "abc" <> "" /\
  validateEmail "abc" = false /\
  let s' := LoginPage.changes [LoginPage.EmailChange "abc"; LoginPage.EmailChange ""]
              LoginPage.initial in
  LoginPage.email (LoginPage.formData s') = "" /\
  get_prop "email" (LoginPage.errors s') =
    Some (JStr "Please enter a valid email address") /\
  LoginPage.submit_disabled s' = true.
Proof.
  assert (H1 : "abc" <> "") by discriminate.
  assert (H2 : validateEmail "abc" = false) by (vm_compute; reflexivity).
  split; [exact H1 |]. split; [exact H2 |].
  exact (LoginPage_emptied_field_keeps_error "abc" LoginPage.initial H1 H2).
Defined.

Lemma LoginPage_typed_credentials_log_in_witness :
  validateEmail "a@b.co" = true /\
  (6 <= String.length "abcdef")%nat /\
  let p := LoginPage.changes
             [LoginPage.EmailChange "a@b.co"; LoginPage.PasswordChange "abcdef";
              LoginPage.RememberMeChange true] LoginPage.initial in
  let a' := snd (Comp.exec
                   (LoginPage.handleSubmit
                      (fun email password rememberMe =>
                         login email password rememberMe t_login t_login))
                   (p, booted)) in
  LoginPage.submit_disabled p = false /\
  isAuthenticated a' = true /\
  user a' = new_session Reference.Date_toISOString "a@b.co" true t_login t_login /\
  a' = exec (login "a@b.co" "abcdef" true t_login t_login) booted.
Proof.
  assert (H1 : validateEmail "a@b.co" = true) by (vm_compute; reflexivity).
  assert (H2 : (6 <= String.length "abcdef")%nat) by (simpl; lia).
  split; [exact H1 |]. split; [exact H2 |].
  exact (LoginPage_typed_credentials_log_in
           Reference.JSON_stringify Reference.Date_toISOString
           t_login t_login "a@b.co" "abcdef" true booted H1 H2).
Defined.

Lemma SignUpPage_confirm_check_either_order_witness :
  "Abcdef1?" <> "" /\
  let verdict :=
    Some (JStr (if String.eqb "Abcdef1?" "Abcdef1!" then "" else "Passwords do not match")) in
  get_prop "confirmPassword"
    (SignUpPage.errors
       (SignUpPage.changes
          [SignUpPage.PasswordChange "Abcdef1!";
           SignUpPage.ConfirmPasswordChange "Abcdef1?"] SignUpPage.initial))
  = verdict /\
  get_prop "confirmPassword"
    (SignUpPage.errors
       (SignUpPage.changes
          [SignUpPage.ConfirmPasswordChange "Abcdef1?";
           SignUpPage.PasswordChange "Abcdef1!"] SignUpPage.initial))
  = verdict.
Proof.
  assert (H : "Abcdef1?" <> "") by discriminate.
  split; [exact H |].
  exact (SignUpPage_confirm_check_either_order "Abcdef1!" "Abcdef1?" SignUpPage.initial H).
Defined.

Lemma ForgotPasswordPage_enabled_button_submits_witness :
  ForgotPasswordPage.isSubmitting ForgotPasswordPage.initial = false /\
  let s1 := Comp.exec (ForgotPasswordPage.handleEmailChange "a@b.co")
              ForgotPasswordPage.initial in
  let s2 := Comp.exec ForgotPasswordPage.handleSubmit s1 in
  (ForgotPasswordPage.submit_disabled s1 = false <-> validateEmail "a@b.co" = true) /\
  (ForgotPasswordPage.submit_disabled s1 = false ->
   ForgotPasswordPage.isSuccess s2 = true /\
   ForgotPasswordPage.toast s2 =
     mkToast true "Password reset instructions sent to your email!" "success" /\
   ForgotPasswordPage.email s2 = "a@b.co").
Proof.
  assert (H : ForgotPasswordPage.isSubmitting ForgotPasswordPage.initial = false)
    by reflexivity.
  split; [exact H |].
  exact (ForgotPasswordPage_enabled_button_submits "a@b.co" ForgotPasswordPage.initial H).
Defined.

Lemma redirects_settle_in_one_step_witness :
  In "/dashboard" (map fst App.routes) /\
  App.settle false (App.settle false "/dashboard") = App.settle false "/dashboard".
Proof.
  assert (H : In "/dashboard" (map fst App.routes)) by (simpl; tauto).
  split; [exact H |].
  exact (redirects_settle_in_one_step false "/dashboard" H).
Defined.

Lemma landing_follows_bootstrap_witness :
  In "/dashboard" ["/"; "/login"; "/signup"; "/dashboard"] /\
  App.landing Reference.JSON_parse (localStorage remembered) ∅ "/dashboard" =
    (if isAuthenticated (exec initializeAuth (mount (localStorage remembered) ∅))
     then "/dashboard"
     else if String.eqb "/dashboard" "/dashboard" then "/login" else "/dashboard") /\
  App.settle (isAuthenticated (mount (localStorage remembered) ∅)) "/dashboard" = "/login" /\
  App.landing Reference.JSON_parse (localStorage remembered) ∅ "/forgot-password"
    = "/forgot-password".
Proof.
  assert (H : In "/dashboard" ["/"; "/login"; "/signup"; "/dashboard"]) by (simpl; tauto).
  split; [exact H |].
  exact (landing_follows_bootstrap Reference.JSON_parse
           (localStorage remembered) ∅ "/dashboard" H).
Defined.

(** *** Further runs *)

(** A password with all five criteria is labelled like the empty one. *)
Example strongest_password_label :
  SignUpPage.calculatePasswordStrength "Abcdef1!" = 5 /\
  SignUpPage.text <$> SignUpPage.getPasswordStrengthInfo
                        (SignUpPage.calculatePasswordStrength "Abcdef1!")
  = Some "Very Weak" /\
  SignUpPage.text <$> SignUpPage.getPasswordStrengthInfo
                        (SignUpPage.calculatePasswordStrength "Abcdefg1")
  = Some "Strong".
Proof. vm_compute. auto. Qed.

(** A remembered visitor who opens the dashboard lands on it, by way of the
    login page. *)
Example remembered_visitor_lands_on_dashboard :
  App.landing Reference.JSON_parse (localStorage remembered) ∅ "/dashboard" = "/dashboard".
Proof. vm_compute. reflexivity. Qed.

End Runs.
